(** * interactive_plotting: a shallow embedding of the argument checks,
      data plumbing and object mutation of [src/interactive_plotting.py]

    The module is glue code over numpy, pandas, scikit-learn, scanpy and
    bokeh.  The embedding keeps what the module itself decides: which checks
    run, in which order, which exception leaves the function, which Python
    objects are written to, and which values flow into the returned data.

    Conventions
    - a Python exception is a value of [exn]; a call that can raise returns
      a [result];
    - objects that Python passes by reference and that the module writes to
      (the dictionaries given to [smooth_expression], the annotated-data
      objects) are threaded through explicitly, so that the caller sees the
      writes of the callee;
    - everything a function prints, warns, computes with a statistical
      routine or draws is appended to a trace of [event]s, in program order;
    - the numeric routines of the libraries (fitting and prediction of a
      regressor, [np.histogram], the classifier, the convex hulls, [sc.tl.dpt])
      are kept symbolic and are taken to return: a call builds a term that
      records its inputs.  What is followed of the libraries is what decides
      whether the module's own calls go through: the lookup of a key in a
      table or dictionary, the keywords a constructor takes, the operators
      the kernels overload, the bounds of a slider and the number of its
      callbacks, and the number of sections of [np.array_split];
    - numbers of the data are rationals; floating-point rounding is not
      modelled; of the module's own arithmetic the test [x > 0] and the
      power and the division of line 480 are followed;
    - a string is a sequence of characters with code points below 256,
      one [ascii] per character; [str.isspace] and [str.strip] are followed
      on all of them, the no-break space and the next-line character
      included;
    - options that only reach bokeh ([tools], [fill_alpha], [legend_loc],
      [show_hull], ...) are left out of the signatures. *)

From Stdlib Require Import ZArith QArith Qabs String Ascii List Bool Lia.
From stdpp Require Import base option gmap strings list fin_maps pretty.

Open Scope string_scope.
Open Scope list_scope.

(** ** Python values, exceptions and results *)

Module Py.

(** The exception classes the module raises or lets through. *)
Inductive exn : Type :=
| ValueError (msg : string)
| AssertionError (msg : string)
| KeyError (key : string)
| TypeError (what : string)
| IndexError (what : string)
| AttributeError (what : string)
| NameError (name : string)
| UnboundLocalError (name : string)
| ZeroDivisionError
| SyntaxError (text : string).

Inductive result (A : Type) : Type :=
| Ok (a : A)
| Raise (e : exn).
Arguments Ok {A} a.
Arguments Raise {A} e.

Definition is_ok {A} (r : result A) : bool :=
  match r with Ok _ => true | Raise _ => false end.

(** Scalars that appear as dictionary values and keyword arguments. *)
Inductive val : Type :=
| VNone
| VBool (b : bool)
| VInt (z : Z)
| VFloat (q : Q)
| VStr (s : string).

(** One entry of a pandas column or of a numeric matrix. *)
Inductive cell : Type :=
| CNum (q : Q)
| CStr (s : string)
| CBool (b : bool)
| CSym (routine : string) (i j : nat).   (* an output of a library routine *)

(** [str(c)] for the entries the module converts; numbers keep a
    symbolic rendering, since float formatting belongs to Python. *)
Inductive text : Type :=
| TStr (s : string)
| TOf (c : cell).

Definition str_of_cell (c : cell) : text :=
  match c with
  | CStr s => TStr s
  | CBool true => TStr "True"
  | CBool false => TStr "False"
  | c => TOf c
  end.

(** [x > 0] on a matrix entry. *)
Definition positive_cell (c : cell) : bool :=
  match c with
  | CNum q => (0 <? Qnum q)%Z
  | CBool b => b
  | _ => false
  end.

End Py.
Export Py.

(** ** smooth_expression *)

(** *** The syntax tree returned by [ast.parse(..., mode='eval').body] *)

Module Ast.

(** Subclasses of [ast.operator]. *)
Inductive operator : Type :=
| Add | Sub | Mult | MatMult | Div | Mod | Pow
| LShift | RShift | BitOr | BitXor | BitAnd | FloorDiv.

(** Subclasses of [ast.unaryop]. *)
Inductive unaryop : Type := Invert | Not | UAdd | USub.

Inductive node : Type :=
| Num (n : Q)
| Name (id : string)
| BinOp (left : node) (op : operator) (right : node)
| UnaryOp (op : unaryop) (operand : node)
| Other (kind : string).   (* Call, Attribute, Compare, Str, ... *)

Definition unaryop_name (op : unaryop) : string :=
  match op with
  | Invert => "Invert" | Not => "Not" | UAdd => "UAdd" | USub => "USub"
  end.

Definition operator_name (op : operator) : string :=
  match op with
  | Add => "Add" | Sub => "Sub" | Mult => "Mult" | MatMult => "MatMult"
  | Div => "Div" | Mod => "Mod" | Pow => "Pow" | LShift => "LShift"
  | RShift => "RShift" | BitOr => "BitOr" | BitXor => "BitXor"
  | BitAnd => "BitAnd" | FloorDiv => "FloorDiv"
  end.

End Ast.
Export Ast.

(** *** Kernels *)

(** The classes in the table [kernels] of [smooth_expression]. *)
Inductive kernel_class : Type :=
| ConstantKernel | WhiteKernel | RBF | Matern
| RationalQuadratic | ExpSineSquared | DotProduct | PairwiseKernel.

(** [kernels[kernel_type]]: [None] stands for the [KeyError] of the lookup. *)
Definition kernels (kernel_type : val) : option kernel_class :=
  match kernel_type with
  | VStr s =>
      if String.eqb s "const" then Some ConstantKernel
      else if String.eqb s "white" then Some WhiteKernel
      else if String.eqb s "rbf" then Some RBF
      else if String.eqb s "mat" then Some Matern
      else if String.eqb s "rq" then Some RationalQuadratic
      else if String.eqb s "esn" then Some ExpSineSquared
      else if String.eqb s "dp" then Some DotProduct
      else if String.eqb s "pw" then Some PairwiseKernel
      else None
  | _ => None
  end.

(** The three functions of the table [operators]. *)
Inductive arith : Type := OpAdd | OpMul | OpPow.

(** [operators[type(node.op)]] for a binary operator. *)
Definition operators (op : operator) : option arith :=
  match op with
  | Add => Some OpAdd
  | Mult => Some OpMul
  | Pow => Some OpPow
  | _ => None
  end.

(** What [_eval] returns: a number, a kernel object built by a constructor
    of scikit-learn from keyword arguments, or the result of [op.add],
    [op.mul], [op.pow] on two such values (scikit-learn overloads them). *)
Inductive kvalue : Type :=
| KNum (n : Q)
| KObj (c : kernel_class) (kwargs : gmap string val)
| KArith (f : arith) (l r : kvalue).

(** A call that unpacks the dictionary [kwargs] into keyword arguments,
    of a function with the keyword parameters [keywords] that collects no
    further keywords: Python raises a [TypeError] for a keyword the function
    does not take, before the body runs.  (The message goes on with the name
    of the keyword.) *)
Definition takes (keywords : list string) (kwargs : gmap string val) : bool :=
  forallb (fun k => existsb (String.eqb k) keywords) (map fst (map_to_list kwargs)).

Definition unexpected_keyword : exn :=
  TypeError "__init__() got an unexpected keyword argument".

(** The parameters of the constructors of the kernels of scikit-learn. *)
Definition kernel_keywords (c : kernel_class) : list string :=
  match c with
  | ConstantKernel => ["constant_value"; "constant_value_bounds"]
  | WhiteKernel => ["noise_level"; "noise_level_bounds"]
  | RBF => ["length_scale"; "length_scale_bounds"]
  | Matern => ["length_scale"; "length_scale_bounds"; "nu"]
  | RationalQuadratic =>
      ["length_scale"; "alpha"; "length_scale_bounds"; "alpha_bounds"]
  | ExpSineSquared =>
      ["length_scale"; "periodicity"; "length_scale_bounds"; "periodicity_bounds"]
  | DotProduct => ["sigma_0"; "sigma_0_bounds"]
  | PairwiseKernel => ["gamma"; "gamma_bounds"; "metric"; "pairwise_kernels_kwargs"]
  end.

(** The call of [kernels[kernel_type]] with the keywords [params], once
    the class is found: the constructors store their arguments and check
    nothing else. *)
Definition construct (c : kernel_class) (kwargs : gmap string val) : result kvalue :=
  if takes (kernel_keywords c) kwargs then Ok (KObj c kwargs)
  else Raise unexpected_keyword.

(** A value that is a number: a literal, or the result of an operator on
    two numbers. *)
Fixpoint is_num (v : kvalue) : bool :=
  match v with
  | KNum _ => true
  | KObj _ _ => false
  | KArith _ l r => is_num l && is_num r
  end.

(** [operators[...](l, r)]: the kernels overload [+], [*] and [**] on the
    left and [+] and [*] on the right, so that a number to the power of a
    kernel is a [TypeError].  The arithmetic of two numbers is kept
    symbolic. *)
Definition apply_op (f : arith) (l r : kvalue) : result kvalue :=
  match f with
  | OpPow =>
      if is_num l && negb (is_num r)
      then Raise (TypeError "unsupported operand type(s) for ** or pow()")
      else Ok (KArith f l r)
  | _ => Ok (KArith f l r)
  end.

(** The two dictionaries [smooth_expression] receives by reference.  Each
    value of [kernel_params] is itself a dictionary; the model takes them to
    be distinct objects. *)
Record kstore : Type := mk_kstore {
  kernel_params : gmap string (gmap string val);
  kernel_default_params : gmap string val;
}.

Definition repr_val_key (v : val) : string :=
  match v with
  | VStr s => s
  | VNone => "None"
  | VBool true => "True"
  | VBool false => "False"
  | VInt z => pretty z
  | VFloat _ => "<float>"
  end.

(** [d.get(key, fallback)]; [d.pop(key, fallback)] returns the same value
    and leaves [delete key d] behind. *)
Definition dict_get {V} (d : gmap string V) (key : string) (fallback : V) : V :=
  match d !! key with Some v => v | None => fallback end.

(** [params.pop('type', 'rbf')] on a dictionary: the value and what is left. *)
Definition pop_type (params : gmap string val) : val * gmap string val :=
  (dict_get params "type" (VStr "rbf"), delete "type" params).

(** *** Regressors and their outputs, kept symbolic *)

(** [gamma]: the keyword argument when given, else
    [1 / (2 * length_scale ** 2)]. *)
Inductive gamma_src : Type :=
| GammaGiven (v : val)
| GammaOfLengthScale (length_scale : val).

(** Line 480, [1 / (2 * length_scale ** 2)]: the power is a [TypeError]
    for [None] and for a string, the division a [ZeroDivisionError] for a
    zero ([False] counts as [0]); the quotient itself is kept symbolic. *)
Definition gamma_of (length_scale : val) : result gamma_src :=
  match length_scale with
  | VInt z =>
      if (z =? 0)%Z then Raise ZeroDivisionError
      else Ok (GammaOfLengthScale length_scale)
  | VFloat q =>
      if Qeq_bool q 0 then Raise ZeroDivisionError
      else Ok (GammaOfLengthScale length_scale)
  | VBool b =>
      if b then Ok (GammaOfLengthScale length_scale) else Raise ZeroDivisionError
  | VNone | VStr _ => Raise (TypeError "unsupported operand type(s) for ** or pow()")
  end.

(** The parameters of [KernelRidge] and of [GaussianProcessRegressor]. *)
Definition kernel_ridge_keywords : list string :=
  ["alpha"; "kernel"; "gamma"; "degree"; "coef0"; "kernel_params"].

Definition gaussian_process_keywords : list string :=
  ["kernel"; "alpha"; "optimizer"; "n_restarts_optimizer"; "normalize_y";
   "copy_X_train"; "random_state"].

(** [KernelRidge(gamma=gamma, kernel=kernel, **opt_params)] fitted on
    [(x, y)]. *)
Record krr_model : Type := mk_krr {
  krr_gamma : gamma_src;
  krr_kernel : val;
  krr_kwargs : gmap string val;
  krr_x : list cell;
  krr_y : list cell;
}.

(** [alpha]: the keyword argument when given, else [np.std(y)]. *)
Inductive alpha_src : Type :=
| AlphaGiven (v : val)
| AlphaStd (y : list cell).

(** [GaussianProcessRegressor(alpha=alpha, optimizer=optimizer,
    **opt_params)] fitted on [(x, y)]; [opt_params['kernel']] is the
    evaluated kernel expression. *)
Record gp_model : Type := mk_gp {
  gp_alpha : alpha_src;
  gp_optimizer : val;
  gp_kernel : kvalue;
  gp_kwargs : gmap string val;
  gp_x : list cell;
  gp_y : list cell;
}.

Inductive ndarray : Type :=
| Linspace (n : nat)                    (* np.linspace(0, 1, n)[:, None] *)
| KrrPredict (m : krr_model) (n : nat)  (* model.predict(x_test) *)
| GpMean (m : gp_model) (n : nat).      (* model.predict(x_test, return_cov=True)[0] *)

Inductive covariance : Type :=
| CovList (l : list val)                (* [None] * n_points *)
| GpCov (m : gp_model) (n : nat).       (* model.predict(x_test, return_cov=True)[1] *)

(** ** The trace of a call *)

(** Calls to statistical and numeric routines. *)
Inductive routine : Type :=
| NpHistogram (values : list cell) (bins : val)
| KernelRidgeFit (m : krr_model)
| GaussianProcessFit (m : gp_model)
| KNeighborsFit (n_neighbors : Z)
| ConvexHulls
| DistanceMatrix (p : val)
| ScanpyDpt (root : nat).

Inductive event : Type :=
| EWarn (msg : string)                   (* warnings.warn *)
| EPrint (msg : string) (args : list val)(* print *)
| EExtract (basis : string) (components : list Z)
                                         (* pd.DataFrame(adata.obsm[..][:, comp - ..]) *)
| ECompute (r : routine)                 (* a statistical or numeric routine *)
| EFigure (title : string)               (* figure(...) and the glyphs drawn on it *)
| EShow (figures : nat).                 (* show(...) *)

(** A trace is quiet when nothing was computed, drawn or shown yet. *)
Definition quiet_event (e : event) : bool :=
  match e with
  | EWarn _ | EPrint _ _ | EExtract _ _ => true
  | ECompute _ | EFigure _ | EShow _ => false
  end.

Definition quiet (t : list event) : bool := forallb quiet_event t.

Section SmoothExpression.

(** [ast.parse(text, mode='eval').body], a routine of the Python standard
    library. *)
Variable ast_parse : string -> result node.

(** The closure [_eval].  The state is threaded through because
    [params.pop] writes to the dictionary that [kernel_params.get]
    returned, which is the caller's object; a raise keeps the writes made
    so far. *)
Fixpoint _eval (kernel_expr : string) (default : bool) (n : node)
    (st : kstore) : result kvalue * kstore :=
  match n with
  | Num q => (Ok (KNum q), st)
  | Name id =>
      if negb default && negb (bool_decide (is_Some (kernel_params st !! id)))
      then (Raise (ValueError
              ("Error while parsing `" ++ kernel_expr ++ "`: `" ++ id ++
               "` is not a valid key in kernel_params. To use RBF kernel with default parameters, specify default=True.")),
            st)
      else
        match kernel_params st !! id with
        | Some params =>
            let '(kernel_type, params') := pop_type params in
            let st' := mk_kstore (<[id := params']> (kernel_params st))
                                 (kernel_default_params st) in
            match kernels kernel_type with
            | Some c => (construct c params', st')
            | None => (Raise (KeyError (repr_val_key kernel_type)), st')
            end
        | None =>
            let '(kernel_type, params') := pop_type (kernel_default_params st) in
            let st' := mk_kstore (kernel_params st) params' in
            match kernels kernel_type with
            | Some c => (construct c params', st')
            | None => (Raise (KeyError (repr_val_key kernel_type)), st')
            end
        end
  | BinOp l op r =>
      match operators op with
      | None => (Raise (KeyError (operator_name op)), st)
      | Some f =>
          match _eval kernel_expr default l st with
          | (Raise e, st1) => (Raise e, st1)
          | (Ok vl, st1) =>
              match _eval kernel_expr default r st1 with
              | (Raise e, st2) => (Raise e, st2)
              | (Ok vr, st2) => (apply_op f vl vr, st2)
              end
          end
      end
  | UnaryOp op _ =>
      (* no unary operator class is a key of [operators] *)
      (Raise (KeyError (unaryop_name op)), st)
  | Other kind => (Raise (TypeError kind), st)
  end.

(** Lines 492-494: the expression to parse in mode ['gp']. *)
Definition sole_key (kernel_expr : option string) (st : kstore) : result string :=
  match kernel_expr with
  | Some e => Ok e
  | None =>
      if Nat.eqb (size (kernel_params st)) 1 then
        (* kernel_expr, = kernel_params.keys() *)
        match map_to_list (kernel_params st) with
        | [(k, _)] => Ok k
        | _ => Raise (ValueError "not enough values to unpack")
        end
      else Raise (AssertionError "")
  end.

(** Lines 492-496: the kernel of mode ['gp']. *)
Definition eval_kernel (kernel_expr : option string) (default : bool) (st : kstore)
    : result kvalue * kstore :=
  match sole_key kernel_expr st with
  | Raise e => (Raise e, st)
  | Ok kernel_expr =>
      match ast_parse kernel_expr with
      | Raise e => (Raise e, st)
      | Ok body => _eval kernel_expr default body st
      end
  end.

Definition smooth_expression (x y : list cell) (n_points : nat) (mode : string)
    (kernel_expr : option string) (default verbose : bool)
    (opt_params : gmap string val) (st : kstore)
    : list event * result (ndarray * ndarray * covariance) * kstore :=
  let x_test := Linspace n_points in
  if String.eqb mode "krr" then
    let gamma := dict_get opt_params "gamma" VNone in
    let opt_params := delete "gamma" opt_params in
    let gamma_out :=
      match gamma with
      | VNone =>
          let length_scale :=
            dict_get (kernel_default_params st) "length_scale" (VFloat (1 # 5)) in
          match gamma_of length_scale with
          | Ok gamma =>
              Ok (gamma,
                  if verbose
                  then [EPrint "Smoothing using KRR with length_scale: {}."
                               [length_scale]]
                  else [])
          | Raise e => Raise e
          end
      | v => Ok (GammaGiven v, [])
      end in
    match gamma_out with
    | Raise e => ([], Raise e, st)
    | Ok (gamma, out) =>
        let kernel := dict_get opt_params "kernel" (VStr "rbf") in
        let opt_params := delete "kernel" opt_params in
        (* KernelRidge(gamma=gamma, kernel=kernel, **opt_params) *)
        if takes kernel_ridge_keywords opt_params then
          let model := mk_krr gamma kernel opt_params x y in
          (out ++ [ECompute (KernelRidgeFit model)],
           Ok (x_test, KrrPredict model n_points, CovList (repeat VNone n_points)),
           st)
        else (out, Raise unexpected_keyword, st)
    end
  else if String.eqb mode "gp" then
    match eval_kernel kernel_expr default st with
    | (Raise e, st') => ([], Raise e, st')
    | (Ok kernel, st') =>
        let alpha :=
          match dict_get opt_params "alpha" VNone with
          | VNone => AlphaStd y
          | v => AlphaGiven v
          end in
        let opt_params := delete "alpha" opt_params in
        let optimizer := dict_get opt_params "optimizer" VNone in
        let opt_params := delete "optimizer" opt_params in
        (* opt_params['kernel'] = kernel *)
        let opt_params := delete "kernel" opt_params in
        (* GaussianProcessRegressor(alpha=alpha, optimizer=optimizer, **opt_params) *)
        if takes gaussian_process_keywords opt_params then
          let model := mk_gp alpha optimizer kernel opt_params x y in
          ([ECompute (GaussianProcessFit model)],
           Ok (x_test, GpMean model n_points, GpCov model n_points),
           st')
        else ([], Raise unexpected_keyword, st')
    end
  else
    (* f'Uknown type: `{type}`.' formats the builtin [type] *)
    ([], Raise (ValueError "Uknown type: `<class 'type'>`."), st).

End SmoothExpression.

(** *** Arguments with which the regressors are fitted *)





(** ** Strings and lists the way the module uses them *)

Module PyStr.

(** [c.isspace()] for a character with a code point below 256: the
    characters 9 to 13 and 28 to 32, U+0085 (next line) and U+00A0 (no-break
    space); these are the characters [str.strip] removes. *)
Definition isspace (c : ascii) : bool :=
  let n := nat_of_ascii c in
  (Nat.leb 9 n && Nat.leb n 13) || (Nat.leb 28 n && Nat.leb n 32)
  || Nat.eqb n 133 || Nat.eqb n 160.

Fixpoint lstrip (s : string) : string :=
  match s with
  | String c s' => if isspace c then lstrip s' else s
  | EmptyString => EmptyString
  end.

Fixpoint rstrip (s : string) : string :=
  match s with
  | EmptyString => EmptyString
  | String c s' =>
      match rstrip s' with
      | EmptyString => if isspace c then EmptyString else String c EmptyString
      | r => String c r
      end
  end.

(** [str.strip] *)
Definition strip (s : string) : string := rstrip (lstrip s).

(** [s.split(sep)] for a one-character separator: the pieces between
    the separators, with the piece being read in [cur]. *)
Fixpoint split_from (sep : ascii) (cur : string) (s : string) : list string :=
  match s with
  | EmptyString => [cur]
  | String c s' =>
      if Ascii.eqb c sep then cur :: split_from sep EmptyString s'
      else split_from sep (cur ++ String c EmptyString) s'
  end.

Definition split (sep : ascii) (s : string) : list string :=
  split_from sep EmptyString s.

Definition mem (k : string) (l : list string) : bool :=
  existsb (String.eqb k) l.

(** [list(dict.fromkeys(l))]: duplicates removed, first occurrences kept
    in order. *)
Fixpoint fromkeys_acc (seen : list string) (l : list string) : list string :=
  match l with
  | [] => []
  | k :: l' =>
      if mem k seen then fromkeys_acc seen l'
      else k :: fromkeys_acc (k :: seen) l'
  end.

Definition fromkeys (l : list string) : list string := fromkeys_acc [] l.

(** [list(dict.fromkeys(map(str.strip, s.split(','))))] *)
Definition split_keys (s : string) : list string :=
  fromkeys (map strip (split "," s)).

Definition list_eqb (a b : list string) : bool :=
  bool_decide (a = b).

End PyStr.

(** [c in s] for a character. *)
Fixpoint contains (c : ascii) (s : string) : bool :=
  match s with
  | EmptyString => false
  | String c' s' => Ascii.eqb c' c || contains c s'
  end.

(** The first and the last character of a string, if it has one. *)
Definition first_char (s : string) : option ascii :=
  match s with
  | EmptyString => None
  | String c _ => Some c
  end.

Fixpoint last_char (s : string) : option ascii :=
  match s with
  | EmptyString => None
  | String c EmptyString => Some c
  | String _ s' => last_char s'
  end.

(** No character, or one that is not white space. *)
Definition no_space (c : option ascii) : bool :=
  match c with
  | Some c => negb (PyStr.isspace c)
  | None => true
  end.

(** ** The annotated-data object *)

(** A column of [adata.obs] or [adata.var]; [categories] is [Some] for a
    column of dtype ['category']. *)
Record column : Type := mk_column {
  values : list cell;
  categories : option (list string);
}.

Definition matrix : Type := list (list Q).

(** [adata.uns['rank_genes_groups']]: the entry ['params'] and the record
    arrays ['names'], ['scores'], ...; each record array has one field per
    group. *)
Record rank_genes_groups : Type := mk_rgg {
  rgg_params : option (gmap string string);
  rgg_fields : gmap string (list string);
}.

Inductive uns_val : Type :=
| UVal (v : val)
| UColors (palette : list string)
| URank (r : rank_genes_groups).

Record AnnData : Type := mk_adata {
  obs : gmap string column;
  var : gmap string column;
  obs_names : list string;
  var_names : list string;
  X : matrix;
  raw : option (list string * matrix);     (* raw.var_names, raw.X *)
  layers : gmap string matrix;
  obsm : gmap string matrix;
  uns : gmap string uns_val;
}.

Definition n_obs (a : AnnData) : nat := length (obs_names a).

Definition has_key {V} (d : gmap string V) (k : string) : bool :=
  bool_decide (is_Some (d !! k)).

(** [d[k]] on a pandas table or a dictionary. *)
Definition getitem {V} (d : gmap string V) (k : string) : result V :=
  match d !! k with
  | Some v => Ok v
  | None => Raise (KeyError k)
  end.

(** Position of a name in an index. *)
Fixpoint index_of (k : string) (l : list string) : option nat :=
  match l with
  | [] => None
  | x :: l' => if String.eqb k x then Some 0 else option_map S (index_of k l')
  end.

(** Rows selected by a boolean mask. *)
Fixpoint select {A} (mask : list bool) (l : list A) : list A :=
  match mask, l with
  | b :: mask', x :: l' => if b then x :: select mask' l' else select mask' l'
  | _, _ => []
  end.

Definition select_column (mask : list bool) (c : column) : column :=
  mk_column (select mask (values c)) (categories c).

(** [adata[mask]]: the observations selected by [mask]. *)
Definition subset_obs (mask : list bool) (a : AnnData) : AnnData :=
  mk_adata (select_column mask <$> obs a) (var a)
           (select mask (obs_names a)) (var_names a)
           (select mask (X a))
           (match raw a with
            | Some (names, m) => Some (names, select mask m)
            | None => None
            end)
           (select mask <$> layers a)
           (select mask <$> obsm a)
           (uns a).

(** [adata[:, mask]]: the variables selected by [mask]. *)
Definition subset_var (mask : list bool) (a : AnnData) : AnnData :=
  mk_adata (obs a) (select_column mask <$> var a)
           (obs_names a) (select mask (var_names a))
           (map (select mask) (X a))
           (raw a)
           (map (select mask) <$> layers a)
           (obsm a)
           (uns a).

(** Column [j] of a matrix, as cells. *)
Definition matrix_column (j : nat) (m : matrix) : list cell :=
  map (fun row => CNum (nth j row 0%Q)) m.

(** [np.in1d(xs, ys)] on strings. *)
Definition in1d (xs ys : list string) : list bool :=
  map (fun x => PyStr.mem x ys) xs.

Definition cell_eqb (a b : cell) : bool :=
  match a, b with
  | CNum p, CNum q => Qeq_bool p q
  | CStr s, CStr t => String.eqb s t
  | CBool x, CBool y => Bool.eqb x y
  | CSym r i j, CSym r' i' j' => String.eqb r r' && Nat.eqb i i' && Nat.eqb j j'
  | _, _ => false
  end.

Definition cell_in_strings (c : cell) (l : list string) : bool :=
  match c with
  | CStr s => PyStr.mem s l
  | _ => false
  end.

(** ** Calls that read and write annotated-data objects *)

(** The objects live in a store and are named by their position; a call
    receives the position of the caller's object.  [trace] collects the
    events of the call. *)
Record world : Type := mk_world {
  heap : list AnnData;
  trace : list event;
}.

Definition M (A : Type) : Type := world -> result A * world.

Definition ret {A} (a : A) : M A := fun w => (Ok a, w).

Definition bind {A B} (m : M A) (k : A -> M B) : M B :=
  fun w =>
    match m w with
    | (Ok a, w') => k a w'
    | (Raise e, w') => (Raise e, w')
    end.

Definition raise {A} (e : exn) : M A := fun w => (Raise e, w).

Definition lift {A} (r : result A) : M A := fun w => (r, w).

Definition emit (e : event) : M unit :=
  fun w => (Ok tt, mk_world (heap w) (trace w ++ [e])).

(** Reading the object at a position; a live Python reference always
    finds its object. *)
Definition read (l : nat) : M AnnData :=
  fun w =>
    match heap w !! l with
    | Some a => (Ok a, w)
    | None => (Raise (NameError "adata"), w)
    end.

(** A new object: [.copy()] and the views made by indexing. *)
Definition alloc (a : AnnData) : M nat :=
  fun w => (Ok (length (heap w)), mk_world (heap w ++ [a]) (trace w)).

(** In-place update of the object at a position. *)
Definition modify (l : nat) (f : AnnData -> AnnData) : M unit :=
  fun w =>
    match heap w !! l with
    | Some a => (Ok tt, mk_world (<[l := f a]> (heap w)) (trace w))
    | None => (Raise (NameError "adata"), w)
    end.

Declare Scope py_scope.
Delimit Scope py_scope with py.
Notation "x <- m ;; k" := (bind m (fun x => k))
  (at level 100, m at next level, right associativity) : py_scope.
Notation "m ;;; k" := (bind m (fun _ => k))
  (at level 100, right associativity) : py_scope.
Open Scope py_scope.

(** A [for] loop whose body can raise: the first raise ends the loop. *)
Fixpoint for_each {A B} (f : A -> M B) (l : list A) : M (list B) :=
  match l with
  | [] => ret []
  | x :: l' =>
      y <- f x ;;
      ys <- for_each f l' ;;
      ret (y :: ys)
  end.

(** [assert cond, msg] *)
Definition py_assert (cond : bool) (msg : string) : M unit :=
  if cond then ret tt else raise (AssertionError msg).

(** [if cond: raise e] *)
Definition raise_if (cond : bool) (e : exn) : M unit :=
  if cond then raise e else ret tt.

(** ** Helpers on results *)

Definition and_then {A B} (r : result A) (k : A -> result B) : result B :=
  match r with
  | Ok a => k a
  | Raise e => Raise e
  end.

(** A list comprehension whose element expression can raise. *)
Fixpoint map_result {A B} (f : A -> result B) (l : list A) : result (list B) :=
  match l with
  | [] => Ok []
  | x :: l' =>
      and_then (f x) (fun y =>
      and_then (map_result f l') (fun ys => Ok (y :: ys)))
  end.

Definition enumerate {A} (l : list A) : list (nat * A) :=
  combine (seq 0 (length l)) l.

(** [itertools.product] of the lists in [ls] *)
Fixpoint product {A} (ls : list (list A)) : list (list A) :=
  match ls with
  | [] => [[]]
  | l :: ls' => flat_map (fun x => map (cons x) (product ls')) l
  end.

(** The distinct entries of a column, first occurrences first (Python
    leaves the iteration order of [set(...)] unspecified). *)
Fixpoint distinct_acc (seen : list cell) (l : list cell) : list cell :=
  match l with
  | [] => []
  | c :: l' =>
      if existsb (cell_eqb c) seen then distinct_acc seen l'
      else c :: distinct_acc (c :: seen) l'
  end.

Definition distinct (l : list cell) : list cell := distinct_acc [] l.

(** The palettes of [bokeh.palettes] the module falls back on. *)
Definition Set1_9 : list string :=
  ["#e41a1c"; "#377eb8"; "#4daf4a"; "#984ea3"; "#ff7f00"; "#ffff33";
   "#a65628"; "#f781bf"; "#999999"].
Definition Set2_8 : list string :=
  ["#66c2a5"; "#fc8d62"; "#8da0cb"; "#e78ac3"; "#a6d854"; "#ffd92f";
   "#e5c494"; "#b3b3b3"].
Definition Set3_12 : list string :=
  ["#8dd3c7"; "#ffffb3"; "#bebada"; "#fb8072"; "#80b1d3"; "#fdb462";
   "#b3de69"; "#fccde5"; "#d9d9d9"; "#bc80bd"; "#ccebc5"; "#ffed6f"].

(** ** interactive_histograms *)

(** Lines 145-148. *)
Definition check_bins (min_bins max_bins : Z) : result unit :=
  if (min_bins <? 1)%Z then
    Raise (ValueError ("Expected min_bins >= 1, got min_bins=" ++ pretty min_bins ++ "."))
  else if (max_bins <? min_bins)%Z then
    Raise (ValueError ("Expected min_bins <= max_bins, got min_bins=" ++ pretty min_bins
                       ++ ", max_bins=" ++ pretty max_bins ++ "."))
  else Ok tt.

(** The condition of lines 154-156, negated. *)
Definition key_known (a : AnnData) (key : string) : bool :=
  has_key (obs a) key || has_key (var a) key || PyStr.mem key (var_names a).

(** Lines 153-157. *)
Fixpoint check_keys (a : AnnData) (keys : list string) : result unit :=
  match keys with
  | [] => Ok tt
  | key :: keys' =>
      if key_known a key then check_keys a keys'
      else Raise (ValueError ("The key `" ++ key ++
             "` does not exist in `adata.obs`, `adata.var` or `adata.var_names`."))
  end.

(** [reduce(lambda l, r: l & r, (adata.obs[k] == v for k, v in zip(groups, vals)), True)] *)
Fixpoint group_mask (n : nat) (cols : list column) (vals : list cell) : list bool :=
  match cols, vals with
  | c :: cols', v :: vals' =>
      let rest := group_mask n cols' vals' in
      map (fun '(x, b) => cell_eqb x v && b) (combine (values c) rest)
  | _, _ => repeat true n
  end.

(** The closure [_create_adata_groups]: the groups of observations with
    the value combination that labels each. *)
Definition _create_adata_groups (a : AnnData) (groups : option (list string))
    (display_all : bool) : result (list AnnData * list (list cell)) :=
  match groups with
  | None => Ok ([a], [[CStr "all"]])
  | Some gs =>
      and_then (map_result (getitem (obs a)) gs) (fun cols =>
        let combs := product (map (fun c => distinct (values c)) cols) in
        let adatas :=
          map (fun vals => subset_obs (group_mask (n_obs a) cols vals) a) combs ++ [a] in
        if display_all
        then Ok (adatas ++ [a], combs ++ [[CStr "all"]])
        else Ok (adatas, combs))
  end.

(** Lines 189-197: the values that go into [np.histogram]. *)
Definition histogram_input (ad : AnnData) (key : string) : result (list cell) :=
  match obs ad !! key with
  | Some c => Ok (values c)
  | None =>
      match var ad !! key with
      | Some c => Ok (values c)
      | None =>
          match index_of key (var_names ad) with
          | Some j => Ok (matrix_column j (X ad))
          | None => Raise (KeyError key)
          end
      end
  end.

(** [palette[j]] *)
Definition palette_at (palette : list string) (j : nat) : result string :=
  match palette !! j with
  | Some c => Ok c
  | None => Raise (IndexError "list index out of range")
  end.

Definition interactive_histograms (adata : nat) (keys : list string) (bins : val)
    (min_bins max_bins : Z) (groups : option (list string))
    (palette : option (list string)) (display_all : bool) : M unit :=
  lift (check_bins min_bins max_bins) ;;;
  let palette :=
    match palette with
    | None => Set1_9 ++ Set2_8 ++ Set3_12
    | Some p => p
    end in
  a <- read adata ;;
  lift (check_keys a keys) ;;;
  ad_gs <- lift (_create_adata_groups a groups display_all) ;;
  cols <- for_each (fun key =>
    emit (EFigure key) ;;;
    (* Slider(start=min_bins, end=max_bins, ...) refuses equal bounds *)
    raise_if (min_bins =? max_bins)%Z
             (ValueError "Slider 'start' and 'end' cannot be equal.") ;;;
    plots <- for_each (fun '(j, (ad, group_vs)) =>
        orig <- lift (histogram_input ad key) ;;
        emit (ECompute (NpHistogram orig bins)) ;;;
        lift (palette_at palette j))
      (enumerate (List.filter (fun ad_g => Nat.ltb 0 (n_obs (fst ad_g)))
                              (combine (fst ad_gs) (snd ad_gs)))) ;;
    (* slider.js_on_change('value', *callbacks) needs one callback *)
    raise_if (Nat.eqb (length plots) 0)
             (ValueError "js_on_change takes an event name and one or more callbacks, got only one parameter") ;;;
    ret plots)
    keys ;;
  (* np.array_split(cols, np.ceil(len(cols) / 2)) *)
  raise_if (Nat.eqb (length cols) 0)
           (ValueError "number sections must be larger than 0.") ;;;
  emit (EShow (length cols)).

(** ** The components of an embedding (hist_thresh, multi_link) *)

(** [components]: a flat list of integers or a list of such lists. *)
Inductive components_arg : Type :=
| Flat (l : list Z)
| Nested (l : list (list Z)).

(** Lines 280-281 and 997-998. *)
Definition wrap_components (components : components_arg) : result (list (list Z)) :=
  match components with
  | Flat [] | Nested [] => Raise (IndexError "list index out of range")
  | Flat l => Ok [l]
  | Nested l => Ok l
  end.

(** Lines 283-285 and 1000-1002. *)
Definition broadcast_components (len_bases : nat) (components : list (list Z))
    : result (list (list Z)) :=
  if negb (Nat.eqb (length components) len_bases) then
    match length components with
    | O => Raise ZeroDivisionError
    | S _ =>
        if Nat.eqb (len_bases mod length components) 0
           && Nat.leb (length components) len_bases
        then Ok (concat (repeat components (len_bases / length components)))
        else Raise (AssertionError "")
    end
  else Ok components.

(** ** hist_thresh *)

Inductive bases_arg : Type :=
| BaseStr (s : string)
| BaseList (l : list string).

Definition len_bases (bases : bases_arg) : nat :=
  match bases with
  | BaseStr s => String.length s
  | BaseList l => length l
  end.

(** [pd.DataFrame(adata.obsm[f'X_{basis}'][:, comp - (basis != 'diffmap')], ...)] *)
Definition extract_embedding (a : AnnData) (basis : string) (comp : list Z) : M unit :=
  lift (getitem (obsm a) ("X_" ++ basis)) ;;;
  emit (EExtract basis comp).

Definition hist_thresh (adata : nat) (key : string) (bases : bases_arg)
    (components : components_arg) (bins : val) : M unit :=
  components <- lift (wrap_components components) ;;
  components <- lift (broadcast_components (len_bases bases) components) ;;
  let bases := match bases with BaseStr s => [s] | BaseList l => l end in
  emit (EFigure "") ;;;
  a <- read adata ;;
  col <- lift (getitem (obs a) key) ;;
  emit (ECompute (NpHistogram (values col) bins)) ;;;
  for_each (fun '(basis, comp) => extract_embedding a basis comp)
           (combine bases components) ;;;
  emb_figs <- for_each (fun '(basis, comp) => emit (EFigure basis))
                       (combine bases components) ;;
  emit (EShow (1 + length emb_figs)).

(** ** Helpers shared by the remaining functions *)

(** [col.cat.categories] *)
Definition cat_categories (c : column) : result (list string) :=
  match categories c with
  | Some cats => Ok cats
  | None => Raise (AttributeError "Can only use .cat accessor with a 'category' dtype")
  end.

(** [_create_mapper(adata, key)]: the lookup [adata.obs[key]] and the
    column whose categories become the factors of the mapper. *)
Definition _create_mapper (a : AnnData) (key : string) : result column :=
  getitem (obs a) key.

(** [cell_keys] and [de_keys]: a comma-separated string or a list. *)
Inductive keys_arg : Type :=
| KeysStr (s : string)
| KeysList (l : list string).

(** Lines 862-867 and 1140-1145. *)
Definition parse_cell_keys (a : AnnData) (cell_keys : keys_arg) : result (list string) :=
  match cell_keys with
  | KeysStr s =>
      let cell_keys := PyStr.split_keys s in
      if negb (PyStr.list_eqb cell_keys [""]) then
        if forallb (has_key (obs a)) cell_keys then Ok cell_keys
        else Raise (AssertionError "Not all keys are in `adata.obs.keys()`.")
      else Ok []
  | KeysList l => Ok l
  end.

Definition rank_genes (a : AnnData) : result rank_genes_groups :=
  match uns a !! "rank_genes_groups" with
  | Some (URank r) => Ok r
  | Some _ => Raise (TypeError "rank_genes_groups")
  | None => Raise (KeyError "rank_genes_groups")
  end.

(** [k in adata.uns['rank_genes_groups'].keys()] *)
Definition rgg_has_key (r : rank_genes_groups) (k : string) : bool :=
  (String.eqb k "params" && bool_decide (is_Some (rgg_params r)))
  || has_key (rgg_fields r) k.

(** Lines 855-860. *)
Definition parse_de_keys (a : AnnData) (de_keys : keys_arg) : result (list string) :=
  match de_keys with
  | KeysStr s =>
      let de_keys := PyStr.split_keys s in
      if negb (PyStr.list_eqb de_keys [""]) then
        and_then (rank_genes a) (fun r =>
          if forallb (rgg_has_key r) de_keys then Ok de_keys
          else Raise (AssertionError "Not all keys are in `adata.uns['rank_genes_groups']`."))
      else Ok []
  | KeysList l => Ok l
  end.

(** [adata.uns['rank_genes_groups']['params']['groupby']] *)
Definition groupby_key (a : AnnData) : result string :=
  and_then (rank_genes a) (fun r =>
    match rgg_params r with
    | Some params => getitem params "groupby"
    | None => Raise (KeyError "params")
    end).

(** ** highlight_de *)

(** Followed in full up to the convex hulls; of the chart assembly after
    them only the figure and the call to [show] are kept. *)
Definition highlight_de (adata : nat) (basis : string) (components : list Z)
    (de_keys cell_keys : keys_arg) (n_neighbors : Z) : M unit :=
  a <- read adata ;;
  raise_if (negb (has_key (uns a) "rank_genes_groups"))
           (ValueError "Run differential expression first.") ;;;
  de_keys <- lift (parse_de_keys a de_keys) ;;
  cell_keys <- lift (parse_cell_keys a cell_keys) ;;
  raise_if (negb (has_key (obsm a) ("X_" ++ basis)))
           (ValueError ("Key `X_" ++ basis ++ "` not found in adata.obsm.")) ;;;
  key <- lift (groupby_key a) ;;
  (* cell_keys.insert(0, key) *)
  let cell_keys := if PyStr.mem key cell_keys then cell_keys else key :: cell_keys in
  extract_embedding a basis components ;;;
  for_each (fun k => lift (getitem (obs a) k)) cell_keys ;;;
  emit (ECompute (KNeighborsFit n_neighbors)) ;;;
  emit (ECompute ConvexHulls) ;;;
  col <- lift (_create_mapper a key) ;;
  lift (cat_categories col) ;;;
  emit (EFigure "") ;;;
  emit (EShow 1).

(** ** plot_cell_indices *)

Definition plot_cell_indices (adata : nat) (key basis : string) (components : list Z)
    (cell_keys : keys_arg) : M unit :=
  a <- read adata ;;
  raise_if (negb (has_key (obs a) key))
           (ValueError (key ++ " not found in `adata.obs`")) ;;;
  raise_if (negb (has_key (obsm a) ("X_" ++ basis)))
           (ValueError ("basis `X_" ++ basis ++ "` not found in `adata.obsm`")) ;;;
  cell_keys <- lift (parse_cell_keys a cell_keys) ;;
  extract_embedding a basis components ;;;
  for_each (fun k => lift (getitem (obs a) k)) cell_keys ;;;
  emit (EFigure key) ;;;
  emit (EShow 1).

(** ** multi_link *)

Definition set_uns (k : string) (v : uns_val) (a : AnnData) : AnnData :=
  mk_adata (obs a) (var a) (obs_names a) (var_names a) (X a) (raw a)
           (layers a) (obsm a) (<[k := v]> (uns a)).

Definition set_obs (k : string) (c : column) (a : AnnData) : AnnData :=
  mk_adata (<[k := c]> (obs a)) (var a) (obs_names a) (var_names a) (X a) (raw a)
           (layers a) (obsm a) (uns a).

(** What [sc.tl.dpt] stores in [obs['dpt_pseudotime']] for the root [i]. *)
Definition dpt_column (i n : nat) : column :=
  mk_column (map (fun j => CSym "dpt_pseudotime" i j) (seq 0 n)) None.

(** Lines 1020-1026: the distances under diffusion pseudotime, one row per
    root, computed on a copy of the data. *)
Definition dpt_distances (adata : nat) (gene_subset : list bool) : M (list (list cell)) :=
  a <- read adata ;;
  ad_tmp <- alloc a ;;                               (* adata.copy() *)
  c <- read ad_tmp ;;
  ad_tmp <- alloc (subset_var gene_subset c) ;;      (* ad_tmp[:, gene_subset] *)
  t <- read ad_tmp ;;
  for_each (fun i =>
      modify ad_tmp (set_uns "iroot" (UVal (VInt (Z.of_nat i)))) ;;;
      emit (ECompute (ScanpyDpt i)) ;;;
      modify ad_tmp (fun t => set_obs "dpt_pseudotime" (dpt_column i (n_obs t)) t) ;;;
      t <- read ad_tmp ;;
      col <- lift (getitem (obs t) "dpt_pseudotime") ;;
      ret (values col))
    (seq 0 (n_obs t)).

Definition is_dpt (distance : val) : bool :=
  match distance with
  | VStr s => String.eqb s "dpt"
  | _ => false
  end.

(** Followed in full up to the distance matrix and the construction of the
    data frame; of the chart assembly only the figures and [show]. *)
Definition multi_link (adata : nat) (bases : list string) (components : components_arg)
    (key : string) (markers : option (list string)) (distance : val)
    (highlight_only : option string) : M unit :=
  components <- lift (wrap_components components) ;;
  components <- lift (broadcast_components (length bases) components) ;;
  a <- read adata ;;
  match highlight_only with
  | Some h => py_assert (has_key (obs a) h) ("`" ++ h ++ "` is not in adata.obs_keys().")
  | None => ret tt
  end ;;;
  let markers := match markers with None => var_names a | Some m => m end in
  let gene_subset := in1d (var_names a) markers in
  (if negb (is_dpt distance) then
     emit (ECompute (DistanceMatrix distance))
   else
     (if negb (forallb id gene_subset)
      then emit (EWarn "markers is not None, are you sure this is what you want when using `dpt` distance?")
      else ret tt) ;;;
     dpt_distances adata gene_subset ;;;
     ret tt) ;;;
  a <- read adata ;;
  for_each (fun '(basis, comp) => extract_embedding a basis comp)
           (combine bases components) ;;;
  match highlight_only with
  | Some h => lift (getitem (obs a) h) ;;; ret tt
  | None => ret tt
  end ;;;
  lift (getitem (obs a) key) ;;;
  lift (_create_mapper a key) ;;;
  figs <- for_each (fun basis => emit (EFigure basis) ;;; emit (EFigure basis)) bases ;;
  (* fig = figs[0] *)
  match figs with
  | [] => raise (IndexError "list index out of range")
  | _ :: _ => ret tt
  end ;;;
  emit (EShow (2 * length figs)).

(** ** plot_velocity *)

(** The keyword arguments [**kwargs], which [plot_velocity] hands to
    [smooth_expression]. *)
Record smooth_kwargs : Type := mk_kwargs {
  kw_kernel_default_params : gmap string val;
  kw_kernel_expr : option string;
  kw_default : bool;
  kw_verbose : bool;
  kw_opt_params : gmap string val;
}.

(** The values appended to the lists of [data]. *)
Inductive entry : Type :=
| Cells (l : list cell)
| Texts (l : list text)
| Array (a : ndarray)
| Cov (c : covariance).

(** [data = defaultdict(list)], in insertion order. *)
Definition frame_data : Type := list (string * list entry).

(** [data[key].append(e)] *)
Fixpoint append_entry (key : string) (e : entry) (data : frame_data) : frame_data :=
  match data with
  | [] => [(key, [e])]
  | (k, l) :: data' =>
      if String.eqb k key then (k, l ++ [e]) :: data'
      else (k, l) :: append_entry key e data'
  end.

(** [data[key]] *)
Fixpoint frame_get (key : string) (data : frame_data) : option (list entry) :=
  match data with
  | [] => None
  | (k, l) :: data' => if String.eqb k key then Some l else frame_get key data'
  end.

Definition emit_all (out : list event) : M unit :=
  fun w => (Ok tt, mk_world (heap w) (trace w ++ out)).

(** A [for] loop that updates a local variable. *)
Fixpoint fold_for {A S} (f : S -> A -> M S) (l : list A) (s : S) : M S :=
  match l with
  | [] => ret s
  | x :: l' => s' <- f s x ;; fold_for f l' s'
  end.

Definition cell_true (c : cell) : bool :=
  match c with CBool b => b | _ => false end.

(** Lines 654-656.  The message of the assertion goes on with the list
    of the categories; its first sentence is kept. *)
Definition check_paths (a : AnnData) (path_key : string) (paths : list (list string))
    : result unit :=
  and_then
    (map_result (fun path =>
       map_result (fun p =>
           and_then (getitem (obs a) path_key) (fun col =>
           and_then (cat_categories col) (fun cats =>
           if PyStr.mem p cats then Ok tt
           else Raise (AssertionError ("`" ++ p ++ "` is not in `adata.obs[path_key]`.")))))
         path)
       paths)
    (fun _ => Ok tt).

(** Lines 659-666: the two tests on [adata.layers.keys()] end in [pass]. *)
Definition check_prerequisites (a : AnnData) (velo_key_ss velo_key_dyn : string)
    : result unit :=
  if negb (has_key (obs a) "dpt_pseudotime") then
    Raise (ValueError "Compute `dpt` first.")
  else
    and_then (if negb (has_key (layers a) velo_key_ss) then Ok tt else Ok tt) (fun _ =>
    if negb (has_key (layers a) velo_key_dyn) then Ok tt else Ok tt).

(** Lines 669-677. *)
Definition select_genes (a : AnnData) (genes : option (list string))
    (n_velocity_genes : nat) : M (list string) :=
  match genes with
  | None =>
      col <- lift (getitem (var a) "velocity_genes") ;;
      ret (take n_velocity_genes (select (map cell_true (values col)) (var_names a)))
  | Some genes =>
      let genes_indicator := map (fun gene => PyStr.mem gene (var_names a)) genes in
      if negb (forallb id genes_indicator) then
        emit (EPrint "Could not find the following genes: `{}`."
                     (map VStr (select (map negb genes_indicator) genes))) ;;;
        ret (select genes_indicator genes)
      else ret genes
  end.

(** Lines 688-691. *)
Definition gene_expression (ad : AnnData) (gene exp_key : string) : result (list cell) :=
  if negb (String.eqb exp_key "X") then
    match index_of gene (var_names ad) with
    | None => Raise (KeyError gene)
    | Some j => and_then (getitem (layers ad) exp_key) (fun m => Ok (matrix_column j m))
    end
  else
    match raw ad with
    | None => Raise (TypeError "'NoneType' object is not subscriptable")
    | Some (names, m) =>
        match index_of gene names with
        | None => Raise (KeyError gene)
        | Some j => Ok (matrix_column j m)
        end
    end.

Section Velocity.

Variable ast_parse : string -> result node.

(** The body of the loop over [paths], lines 686-725. *)
Definition velocity_path (adata : nat) (gene exp_key mode : string) (smooth : bool)
    (length_scale : val) (color_key path_key : string) (kwargs : smooth_kwargs)
    (data : frame_data) (path : list string) : M frame_data :=
  a <- read adata ;;
  col <- lift (getitem (obs a) path_key) ;;
  let path_ix := map (fun c => cell_in_strings c path) (values col) in
  ad <- alloc (subset_obs path_ix a) ;;            (* adata[path_ix].copy() *)
  ad <- read ad ;;
  gene_exp <- lift (gene_expression ad gene exp_key) ;;
  let ix := map positive_cell gene_exp in
  dpt <- lift (getitem (obs ad) "dpt_pseudotime") ;;
  let data := append_entry "expr" (Cells gene_exp) data in
  let data := append_entry "dpt" (Cells (values dpt)) data in
  colors <- lift (getitem (obs ad) color_key) ;;
  let data := append_entry color_key (Texts (map str_of_cell (values colors))) data in
  if smooth then
    py_assert (forallb positive_cell (select ix gene_exp)) "" ;;;
    let st := mk_kstore {[ "k" := {[ "length_scale" := length_scale ]} ]}
                        (kw_kernel_default_params kwargs) in
    let '(out, r, _) :=
      smooth_expression ast_parse (select ix (values dpt)) (select ix gene_exp)
        (length (values dpt)) mode (kw_kernel_expr kwargs) (kw_default kwargs)
        (kw_verbose kwargs) (kw_opt_params kwargs) st in
    emit_all out ;;;
    triple <- lift r ;;
    let '(x_test, exp_mean, exp_cov) := triple in
    let data := append_entry "x_test" (Array x_test) data in
    let data := append_entry "x_mean" (Array exp_mean) data in
    let data := append_entry "x_cov" (Cov exp_cov) data in
    ret data
  else ret data.

(** The body of the loop over [genes], lines 684-753: [data] starts
    empty for every gene.  The data frame and the figure made from it are
    one event. *)
Definition velocity_gene (adata : nat) (paths : list (list string))
    (exp_key mode : string) (smooth : bool) (length_scale : val)
    (color_key path_key : string) (kwargs : smooth_kwargs) (gene : string)
    : M frame_data :=
  data <- fold_for (velocity_path adata gene exp_key mode smooth length_scale
                                  color_key path_key kwargs) paths [] ;;
  emit (EFigure gene) ;;;
  ret data.

Definition plot_velocity (adata : nat) (paths : list (list string))
    (genes : option (list string)) (n_velocity_genes : nat)
    (exp_key mode : string) (smooth : bool) (length_scale : val)
    (color_key path_key : string) (return_values : bool)
    (velo_key_ss velo_key_dyn : string) (kwargs : smooth_kwargs)
    : M (option frame_data) :=
  (if String.eqb mode "krr"
   then emit (EWarn "KRR is experimental, consider using mode=`gp`")
   else ret tt) ;;;
  a <- read adata ;;
  lift (check_paths a path_key paths) ;;;
  lift (check_prerequisites a velo_key_ss velo_key_dyn) ;;;
  genes <- select_genes a genes n_velocity_genes ;;
  lift (_create_mapper a color_key) ;;;
  datas <- for_each (velocity_gene adata paths exp_key mode smooth length_scale
                                   color_key path_key kwargs) genes ;;
  emit (EShow (length datas)) ;;;
  if return_values then
    (* [data] is the variable of the last iteration *)
    match last datas with
    | Some data => ret (Some data)
    | None => raise (UnboundLocalError "data")
    end
  else ret None.

End Velocity.

(** ** pred_exp *)

(** What a name can be bound to when [pred_exp] runs. *)
Inductive pyobject : Type :=
| PArray (a : list cell)
| PGlobal (name : string).      (* a module, class or function *)

(** The names the module binds at top level; [star] are the names brought
    in by [from sklearn.gaussian_process.kernels import *]. *)
Definition module_globals (star : list string) : list string :=
  star ++
  ["neighbors"; "issparse"; "distance_matrix"; "ConvexHull"; "reduce";
   "defaultdict"; "product"; "warnings"; "np"; "pd"; "sc"; "cm"; "matplotlib";
   "figure"; "show"; "ColumnDataSource"; "Slider"; "HoverTool"; "ColorBar";
   "Patches"; "Legend"; "CustomJS"; "TextInput"; "LabelSet";
   "CategoricalColorMapper"; "layout"; "column"; "row"; "GridSpec";
   "linear_cmap"; "factor_mark"; "factor_cmap"; "MarkerType";
   "Set1"; "Set2"; "Set3"; "viridis"; "Button";
   "_inter_hist_js_code"; "_cmap_to_colors"; "_create_mapper";
   "interactive_histograms"; "hist_thresh"; "smooth_expression";
   "compute_dist"; "shift_scale"; "pred_exp"; "plot_velocity";
   "_create_velocity_figure"; "highlight_de"; "multi_link"; "plot_cell_indices";
   "__name__"; "__doc__"; "__package__"; "__loader__"; "__spec__";
   "__file__"; "__builtins__"].

(** [simps(y[:t], x[:t])], kept symbolic. *)
Inductive integral : Type :=
| Simps (y x : list cell).

Section PredExp.

(** The names exported by the star import and the names of the module
    [builtins]. *)
Variables star builtins : list string.

(** Name resolution inside [pred_exp]: the local variables first, then
    the module, then the builtins. *)
Definition resolve (locals : list (string * pyobject)) (name : string) : result pyobject :=
  match List.find (fun kv => String.eqb (fst kv) name) locals with
  | Some (_, v) => Ok v
  | None =>
      if PyStr.mem name (module_globals star) || PyStr.mem name builtins
      then Ok (PGlobal name)
      else Raise (NameError name)
  end.

(** [a.shape[0]] *)
Definition shape0 (o : pyobject) : result nat :=
  match o with
  | PArray a => Ok (length a)
  | PGlobal name => Raise (AttributeError "shape")
  end.

(** [a.flatten()] *)
Definition flatten (o : pyobject) : result (list cell) :=
  match o with
  | PArray a => Ok a
  | PGlobal name => Raise (AttributeError "flatten")
  end.

(** [a[:t]] *)
Definition slice_to (t : nat) (o : pyobject) : result (list cell) :=
  match o with
  | PArray a => Ok (take t a)
  | PGlobal name => Raise (TypeError "object is not subscriptable")
  end.

(** The import of [simps] in the first line is taken to succeed. *)
Definition pred_exp (x_test y_test : list cell) : result (list integral) :=
  let locals := [("x_test", PArray x_test); ("y_test", PArray y_test)] in
  (* n_points = X_test.shape[0] *)
  and_then (resolve locals "X_test") (fun X_test =>
  and_then (shape0 X_test) (fun n_points =>
  (* [integrate(t, y_test, X_test.flatten()) for t in range(1, n_points + 1)] *)
  map_result (fun t =>
      and_then (resolve locals "y_test") (fun y =>
      and_then (resolve locals "X_test") (fun X_test =>
      and_then (flatten X_test) (fun x =>
      and_then (slice_to t y) (fun yt =>
      Ok (Simps yt (take t x)))))))
    (seq 1 n_points))).

End PredExp.

(** ** The keys a call asks for *)

(** The keys named by [cell_keys]: the entries of a list, or the pieces of
    a comma-separated string, the empty string standing for no key. *)
Definition requested_keys (cell_keys : keys_arg) : list string :=
  match cell_keys with
  | KeysStr s =>
      if PyStr.list_eqb (PyStr.split_keys s) [""] then [] else PyStr.split_keys s
  | KeysList l => l
  end.

(** [m] run in [w] ends in an exception, with nothing computed, drawn or
    shown on the way and no object of the store touched. *)
Definition fails_quietly {A} (m : M A) (w : world) : Prop :=
  exists e out,
    m w = (Raise e, mk_world (heap w) (trace w ++ out)) /\ quiet out = true.

(** ** What a call leaves of the objects it was given *)

(** [preserves n m]: running [m] keeps the first [n] objects of the store
    and removes none. *)
Definition preserves {A} (n : nat) (m : M A) : Prop :=
  forall w, n <= length (heap w) ->
    take n (heap (snd (m w))) = take n (heap w) /\ n <= length (heap (snd (m w))).

(** [keeps_objects m]: after [m], every object of the store is what it was
    before; the store has at most grown by the objects made during the
    call. *)
Definition keeps_objects {A} (m : M A) : Prop :=
  forall w, heap w `prefix_of` heap (snd (m w)).

(** No dictionary of kernel parameters has an entry ['type']. *)
Definition no_type_key (st : kstore) : Prop :=
  (forall id params, kernel_params st !! id = Some params -> params !! "type" = None)
  /\ kernel_default_params st !! "type" = None.

(** ** Inputs for the examples *)

Module Demo.

(** [ast.parse] on a bare name; the examples parse nothing else. *)
Definition parse_name (s : string) : result node := Ok (Name s).

(** Three cells in two clusters, two genes, pseudotime computed, no
    velocity layers, no differential expression. *)
Definition adata : AnnData :=
  mk_adata
    {[ "louvain" := mk_column [CStr "a"; CStr "a"; CStr "b"] (Some ["a"; "b"]);
       "dpt_pseudotime" := mk_column [CNum 0; CNum (1 # 2); CNum 1] None ]}
    {[ "velocity_genes" := mk_column [CBool true; CBool false] None ]}
    ["cell0"; "cell1"; "cell2"]
    ["g1"; "g2"]
    [[1; 0]; [2; 3]; [4; 5]]%Q
    (Some (["g1"; "g2"], [[1; 0]; [2; 3]; [4; 5]]%Q))
    ∅
    {[ "X_umap" := [[0; 0]; [1; 0]; [0; 1]]%Q ]}
    ∅.

Definition world0 : world := mk_world [adata] [].

Definition no_kwargs : smooth_kwargs := mk_kwargs ∅ None false false ∅.

(** Names that the star import of the kernels brings in, and some of the
    builtins. *)
Definition star : list string :=
  ["Kernel"; "Hyperparameter"; "ConstantKernel"; "WhiteKernel"; "RBF"; "Matern";
   "RationalQuadratic"; "ExpSineSquared"; "DotProduct"; "PairwiseKernel";
   "Sum"; "Product"; "Exponentiation"; "CompoundKernel"].

Definition builtins : list string :=
  ["len"; "range"; "list"; "map"; "zip"; "str"; "type"; "print"; "all";
   "isinstance"; "enumerate"; "filter"; "dict"; "set"; "sum"; "hasattr";
   "ValueError"; "TypeError"; "True"; "False"; "None"].

(** [kernel_params = {'a': {'type': 'const'}}], nothing else given. *)
Definition const_params : kstore :=
  mk_kstore {[ "a" := {[ "type" := VStr "const" ]} ]} ∅.

Definition empty_params : kstore := mk_kstore ∅ ∅.

(** [{'type': 'const', 'constant_value': 2}] and
    [kernel_params = {'a': {'type': 'const', 'constant_value': 2}}]. *)
Definition const_two : gmap string val :=
  {[ "type" := VStr "const"; "constant_value" := VInt 2 ]}.

Definition const_two_params : kstore := mk_kstore {[ "a" := const_two ]} ∅.

End Demo.

(** ** _cmap_to_colors *)

Module Colors.

(** One digit of [format(val, 'x')]. *)
Definition hex_char (d : N) : ascii :=
  match d with
  | 0 => "0" | 1 => "1" | 2 => "2" | 3 => "3" | 4 => "4" | 5 => "5"
  | 6 => "6" | 7 => "7" | 8 => "8" | 9 => "9" | 10 => "a" | 11 => "b"
  | 12 => "c" | 13 => "d" | 14 => "e" | _ => "f"
  end%N%char.

(** The digits of [val] in base 16, most significant first, in front of
    [acc]. *)
Fixpoint hex_digits (fuel : nat) (val : N) (acc : string) : string :=
  match fuel with
  | O => acc
  | S fuel' =>
      let acc' := String (hex_char (val mod 16)) acc in
      if (val / 16 =? 0)%N then acc' else hex_digits fuel' (val / 16) acc'
  end.

(** ['{:x}'.format(val)] for an unsigned integer. *)
Definition format_x (val : N) : string :=
  hex_digits (S (N.to_nat (N.log2 val))) val EmptyString.

(** ['{:02x}'.format(val)]: at least two characters, zeros in front. *)
Definition format_02x (val : N) : string :=
  let s := format_x val in
  if Nat.ltb (String.length s) 2 then String "0" s else s.

(** [c.upper()] for an ASCII character. *)
Definition upper_char (c : ascii) : ascii :=
  let n := nat_of_ascii c in
  if Nat.leb 97 n && Nat.leb n 122 then ascii_of_nat (n - 32) else c.

Fixpoint upper (s : string) : string :=
  match s with
  | EmptyString => EmptyString
  | String c s' => String (upper_char c) (upper s')
  end.

(** Line 72, for one row [item] of the colour map: the last entry, the
    alpha channel, is cut off by [item[:-1]]. *)
Definition color_of (item : list N) : string :=
  String "#" (String.concat EmptyString
                (map (fun val => upper (format_02x val)) (removelast item))).

(** Lines 71-72. *)
Definition _cmap_to_colors (cmap_vals : list (list N)) : list string :=
  map color_of cmap_vals.

(** The two characters that stand for a byte in a colour string, and the
    value of one such character; they state what [color_of] produces. *)
Definition byte_chars (v : N) : string :=
  String (upper_char (hex_char (v / 16)))
         (String (upper_char (hex_char (v mod 16))) EmptyString).

Definition hex_value (c : ascii) : N :=
  let n := N.of_nat (nat_of_ascii c) in
  if (n <? 58)%N then (n - 48)%N else (n - 55)%N.

End Colors.

(** ** The histogram loop of [_inter_hist_js_code] *)

Module Rebin.

(** The inner loop of lines 47-53: the first [j] with [x[i] <= r_edges[j]]. *)
Fixpoint first_bin (v : Q) (r_edges : list Q) : option nat :=
  match r_edges with
  | [] => None
  | r :: r_edges' =>
      if Qle_bool v r then Some 0 else option_map S (first_bin v r_edges')
  end.

(** The body of the outer loop: [hist[j] += 1; indices[j].push(i)]. *)
Definition assign (r_edges : list Q) (st : list nat * list (list nat))
    (iv : nat * Q) : list nat * list (list nat) :=
  match first_bin (snd iv) r_edges with
  | Some j => (alter S j (fst st), alter (fun l => l ++ [fst iv]) j (snd st))
  | None => st
  end.

(** Lines 40, 43 and 46-54: [hist] and [indices] after the loop, for the
    sorted data [x] and the right edges [r_edges]. *)
Definition rebin (x : list Q) (r_edges : list Q) : list nat * list (list nat) :=
  fold_left (assign r_edges) (enumerate x)
            (repeat 0 (length r_edges), repeat [] (length r_edges)).

(** The positions of [x] whose value falls into bin [j], in order, and
    the values that some right edge bounds; they state what [rebin]
    computes. *)
Definition members (x r_edges : list Q) (j : nat) : list nat :=
  List.filter
    (fun i => match x !! i with
              | Some v => bool_decide (first_bin v r_edges = Some j)
              | None => false
              end)
    (seq 0 (length x)).

Definition covered (r_edges : list Q) (v : Q) : bool :=
  existsb (Qle_bool v) r_edges.

End Rebin.

(** ** _create_velocity_figure *)

(** [ds.get(key)] on one row of the data frame. *)
Fixpoint frame_get_row (key : string) (ds : list (string * entry)) : option entry :=
  match ds with
  | [] => None
  | (k, e) :: ds' => if String.eqb k key then Some e else frame_get_row key ds'
  end.


(** What is drawn for one path. *)
Inductive glyph : Type :=
| GScatter (marker path : string)        (* fig.scatter('dpt', 'expr', ...) *)
| GLine (y path : string)                (* fig.line('x_test', y, ...) *)
| GPatch (path : string).                (* fig.patch(band_x, band_y, ...) *)

(** [all(map(lambda val: val is not None, e))] for an entry of a row. *)
Definition all_not_none (e : entry) : bool :=
  match e with
  | Cov (CovList l) =>
      forallb (fun v => match v with VNone => false | _ => true end) l
  | _ => true
  end.

(** Lines 787-806 for one row [ds] of the data frame. *)
Definition row_glyphs (marker path : string) (ds : list (string * entry)) : list glyph :=
  GScatter marker path ::
  match frame_get_row "x_test" ds with
  | Some _ =>
      match frame_get_row "x_mean" ds with
      | Some _ =>
          GLine "x_mean" path ::
          (if match frame_get_row "x_cov" ds with
              | Some e => all_not_none e
              | None => false          (* the default [None] of ds.get *)
              end
           then [GPatch path] else [])
      | None => []
      end
      ++ match frame_get_row "x_grad" ds with
         | Some _ => [GLine "x_grad" path]
         | None => []
         end
  | None => []
  end.

(** Lines 783-811: the rows are paired with the markers by [zip]. *)
Definition _create_velocity_figure (markers : list string)
    (rows : list (string * list (string * entry))) : list glyph :=
  flat_map (fun '(marker, (path, ds)) => row_glyphs marker path ds)
           (combine markers rows).

(** ** What a successful call of interactive_histograms leaves in the trace *)

(** The figure of [key] and, when there are observations, the histogram
    of its values: the events of one round of the loop over [keys] when no
    grouping is asked for. *)
Definition histogram_events (a : AnnData) (bins : val) (key : string) : list event :=
  EFigure key ::
  (if Nat.ltb 0 (n_obs a) then
     match histogram_input a key with
     | Ok orig => [ECompute (NpHistogram orig bins)]
     | Raise _ => []
     end
   else []).



(** A matrix or column entry that is a number. *)
Definition is_number (c : cell) : bool :=
  match c with
  | CNum _ => true
  | _ => false
  end.

(** Values of [bins] that [np.histogram] takes for any numeric data: a
    positive number of bins or the name of one of its rules. *)
Definition plain_bins (bins : val) : bool :=
  match bins with
  | VInt z => (1 <=? z)%Z
  | VStr s =>
      PyStr.mem s ["auto"; "fd"; "doane"; "scott"; "rice"; "sturges"; "sqrt"]
  | _ => false
  end.

(** ** Statements about further calls *)


(** Between two states of the dictionaries given to [smooth_expression]:
    every dictionary of parameters is what it was, or what it was without
    its entry ['type']. *)
Definition only_type_popped (st st' : kstore) : Prop :=
  (forall id,
      kernel_params st' !! id = kernel_params st !! id
      \/ kernel_params st' !! id = delete "type" <$> kernel_params st !! id)
  /\ (kernel_default_params st' = kernel_default_params st
      \/ kernel_default_params st' = delete "type" (kernel_default_params st)).

(** The expressions [_eval] has a case for, all the way down: numbers,
    names that are keys of [kernel_params] (any name with [default=True]),
    and the operators [+], [*] and [**]. *)
Fixpoint supported (default : bool) (st : kstore) (n : node) : bool :=
  match n with
  | Num _ => true
  | Name id => default || bool_decide (is_Some (kernel_params st !! id))
  | BinOp l op r =>
      bool_decide (is_Some (operators op)) && supported default st l
      && supported default st r
  | UnaryOp _ _ => false
  | Other _ => false
  end.

(** The example data after a differential expression grouped by a column
    that is not in [obs]. *)
Definition ranked_adata : AnnData :=
  set_uns "rank_genes_groups"
    (URank (mk_rgg (Some {[ "groupby" := "leiden"; "reference" := "rest" ]})
                   {[ "names" := ["0"; "1"]; "scores" := ["0"; "1"] ]}))
    Demo.adata.

(** * Properties *)

(** ** Objects that exist before a call are left as they are *)

Section Preserves.

Context (n : nat).

Lemma preserves_ret {A} (a : A) : preserves n (ret a).
Proof. intros w Hn. simpl. auto. Qed.

Lemma preserves_raise {A} (e : exn) : preserves n (@raise A e).
Proof. intros w Hn. simpl. auto. Qed.

Lemma preserves_lift {A} (r : result A) : preserves n (lift r).
Proof. intros w Hn. simpl. auto. Qed.

Lemma preserves_emit (e : event) : preserves n (emit e).
Proof. intros w Hn. simpl. auto. Qed.

Lemma preserves_emit_all (out : list event) : preserves n (emit_all out).
Proof. intros w Hn. simpl. auto. Qed.

Lemma preserves_read (l : nat) : preserves n (read l).
Proof. intros w Hn. unfold read. destruct (heap w !! l); simpl; auto. Qed.

Lemma preserves_py_assert (c : bool) (msg : string) : preserves n (py_assert c msg).
Proof. intros w Hn. destruct c; simpl; auto. Qed.

Lemma preserves_raise_if (c : bool) (e : exn) : preserves n (raise_if c e).
Proof. intros w Hn. destruct c; simpl; auto. Qed.

(** A write to an object made during the call. *)
Lemma preserves_modify (l : nat) (f : AnnData -> AnnData) :
  n <= l -> preserves n (modify l f).
Proof.
  intros Hl w Hn. unfold modify.
  destruct (heap w !! l); simpl; auto.
  rewrite take_insert, length_insert.
  destruct (decide (l < n)); [lia | auto].
Qed.

Lemma preserves_bind {A B} (m : M A) (k : A -> M B) :
  preserves n m -> (forall a, preserves n (k a)) -> preserves n (bind m k).
Proof.
  intros Hm Hk w Hn. unfold bind.
  destruct (Hm w Hn) as [Ht Hl].
  destruct (m w) as [[a | e] w1]; simpl in *.
  - destruct (Hk a w1 Hl) as [Ht' Hl']. split; [congruence | exact Hl'].
  - auto.
Qed.

(** A new object lies beyond the first [n]. *)
Lemma preserves_bind_alloc {B} (a : AnnData) (k : nat -> M B) :
  (forall l, n <= l -> preserves n (k l)) -> preserves n (bind (alloc a) k).
Proof.
  intros Hk w Hn. unfold bind, alloc.
  assert (Hn' : n <= length (heap w ++ [a])) by (rewrite length_app; simpl; lia).
  destruct (Hk (length (heap w)) Hn (mk_world (heap w ++ [a]) (trace w)) Hn')
    as [Ht Hl].
  split; [| exact Hl].
  rewrite Ht. simpl. apply take_app_le. exact Hn.
Qed.

Lemma preserves_for_each {A B} (f : A -> M B) (l : list A) :
  (forall x, preserves n (f x)) -> preserves n (for_each f l).
Proof.
  intros Hf. induction l as [| x l IH]; simpl.
  - apply preserves_ret.
  - apply preserves_bind; [apply Hf |]. intros y.
    apply preserves_bind; [exact IH |]. intros ys. apply preserves_ret.
Qed.

Lemma preserves_fold_for {A S} (f : S -> A -> M S) (l : list A) (s : S) :
  (forall s x, preserves n (f s x)) -> preserves n (fold_for f l s).
Proof.
  intros Hf. revert s. induction l as [| x l IH]; intros s; simpl.
  - apply preserves_ret.
  - apply preserves_bind; [apply Hf |]. intros s'. apply IH.
Qed.

End Preserves.

(** One step of a proof of [preserves]: the rule for the head of the
    program, or a case split on what the program branches on. *)
Ltac preserves_step :=
  first
    [ apply preserves_bind_alloc; intros
    | apply preserves_bind; [| intros]
    | apply preserves_ret
    | apply preserves_raise
    | apply preserves_lift
    | apply preserves_emit
    | apply preserves_emit_all
    | apply preserves_read
    | apply preserves_py_assert
    | apply preserves_raise_if
    | apply preserves_modify; assumption
    | apply preserves_for_each; intros
    | apply preserves_fold_for; intros
    | match goal with
      | |- preserves _ (match ?x with _ => _ end) => destruct x
      | |- preserves _ ((fun _ => _) _) => cbv beta
      end ].

Ltac preserves_auto := repeat preserves_step.

Lemma preserves_keeps_objects {A} (m : M A) :
  (forall n, preserves n m) -> keeps_objects m.
Proof.
  intros H w. destruct (H (length (heap w)) w (le_n _)) as [Ht _].
  rewrite firstn_all in Ht.
  exists (drop (length (heap w)) (heap (snd (m w)))).
  rewrite <- Ht at 1. symmetry. apply take_drop.
Qed.

Lemma keeps_objects_lookup {A} (m : M A) (w : world) (l : nat) (a : AnnData) :
  keeps_objects m -> heap w !! l = Some a -> heap (snd (m w)) !! l = Some a.
Proof.
  intros H Hl. destruct (H w) as [tmp ->]. apply lookup_app_l_Some. exact Hl.
Qed.

Lemma interactive_histograms_preserves n adata keys bins min_bins max_bins groups
    palette display_all :
  preserves n (interactive_histograms adata keys bins min_bins max_bins groups
                                      palette display_all).
Proof. unfold interactive_histograms. preserves_auto. Qed.

Lemma hist_thresh_preserves n adata key bases components bins :
  preserves n (hist_thresh adata key bases components bins).
Proof. unfold hist_thresh, extract_embedding. preserves_auto. Qed.

Lemma highlight_de_preserves n adata basis components de_keys cell_keys n_neighbors :
  preserves n (highlight_de adata basis components de_keys cell_keys n_neighbors).
Proof. unfold highlight_de, extract_embedding. preserves_auto. Qed.

Lemma plot_cell_indices_preserves n adata key basis components cell_keys :
  preserves n (plot_cell_indices adata key basis components cell_keys).
Proof. unfold plot_cell_indices, extract_embedding. preserves_auto. Qed.

Lemma dpt_distances_preserves n adata gene_subset :
  preserves n (dpt_distances adata gene_subset).
Proof. unfold dpt_distances. preserves_auto. Qed.

Lemma multi_link_preserves n adata bases components key markers distance highlight_only :
  preserves n (multi_link adata bases components key markers distance highlight_only).
Proof.
  unfold multi_link, extract_embedding.
  repeat first [ apply dpt_distances_preserves | preserves_step ].
Qed.

Lemma plot_velocity_preserves parse n adata paths genes n_velocity_genes exp_key mode
    smooth length_scale color_key path_key return_values velo_key_ss velo_key_dyn kwargs :
  preserves n (plot_velocity parse adata paths genes n_velocity_genes exp_key mode
                             smooth length_scale color_key path_key return_values
                             velo_key_ss velo_key_dyn kwargs).
Proof.
  unfold plot_velocity, velocity_gene, velocity_path, select_genes.
  preserves_auto.
Qed.

(** [multi_link] with the pseudotime distance on the example: the object
    of the caller stays first in the store and keeps its empty [uns]; the
    copy and its slice follow, and only the slice received [iroot] and the
    pseudotime column. *)
Example multi_link_dpt_writes_to_the_copy :
  let w := snd (multi_link 0 ["umap"] (Flat [1; 2]%Z) "louvain" None (VStr "dpt") None
                           Demo.world0) in
  heap w !! 0 = Some Demo.adata
  /\ heap w !! 1 = Some Demo.adata
  /\ length (heap w) = 3
  /\ (uns <$> heap w !! 2) = Some {[ "iroot" := UVal (VInt 2) ]}
  /\ (values <$> ((obs <$> heap w !! 2) ≫= (.!! "dpt_pseudotime")))
     = Some [CSym "dpt_pseudotime" 2 0; CSym "dpt_pseudotime" 2 1;
             CSym "dpt_pseudotime" 2 2].
Proof. vm_compute. repeat split; reflexivity. Qed.

(** C4: no public function changes the annotated-data object it is given.
    After a call of any of the six functions that take one, every object of
    the store (so its observation table, variable table, matrix, embeddings
    and metadata) is what it was; the objects written to by [multi_link]
    and made by [plot_velocity] are new ones, appended to the store. *)
Theorem public_functions_keep_adata :
  (forall adata keys bins min_bins max_bins groups palette display_all,
      keeps_objects (interactive_histograms adata keys bins min_bins max_bins
                                            groups palette display_all))
  /\ (forall adata key bases components bins,
      keeps_objects (hist_thresh adata key bases components bins))
  /\ (forall parse adata paths genes n_velocity_genes exp_key mode smooth length_scale
             color_key path_key return_values velo_key_ss velo_key_dyn kwargs,
      keeps_objects (plot_velocity parse adata paths genes n_velocity_genes exp_key
                                   mode smooth length_scale color_key path_key
                                   return_values velo_key_ss velo_key_dyn kwargs))
  /\ (forall adata basis components de_keys cell_keys n_neighbors,
      keeps_objects (highlight_de adata basis components de_keys cell_keys n_neighbors))
  /\ (forall adata bases components key markers distance highlight_only,
      keeps_objects (multi_link adata bases components key markers distance
                                highlight_only))
  /\ (forall adata key basis components cell_keys,
      keeps_objects (plot_cell_indices adata key basis components cell_keys)).
Proof.
  repeat split; intros; apply preserves_keeps_objects; intros n.
  - apply interactive_histograms_preserves.
  - apply hist_thresh_preserves.
  - apply plot_velocity_preserves.
  - apply highlight_de_preserves.
  - apply multi_link_preserves.
  - apply plot_cell_indices_preserves.
Qed.

(** ** interactive_histograms: the range of the number of bins *)

Lemma check_bins_ok (min_bins max_bins : Z) :
  check_bins min_bins max_bins = Ok tt <-> (1 <= min_bins /\ min_bins <= max_bins)%Z.
Proof.
  unfold check_bins.
  destruct (Z.ltb_spec min_bins 1); [split; [discriminate | lia] |].
  destruct (Z.ltb_spec max_bins min_bins); [split; [discriminate | lia] |].
  split; [lia | reflexivity].
Qed.

Lemma check_bins_raises (min_bins max_bins : Z) :
  (min_bins < 1 \/ max_bins < min_bins)%Z ->
  exists msg, check_bins min_bins max_bins = Raise (ValueError msg).
Proof.
  intros H. unfold check_bins.
  destruct (Z.ltb_spec min_bins 1); [eexists; reflexivity |].
  destruct (Z.ltb_spec max_bins min_bins); [eexists; reflexivity | lia].
Qed.

(** C2: with [min_bins < 1] or [max_bins < min_bins], [interactive_histograms]
    raises a [ValueError] and leaves the store and the trace as they were:
    no histogram was computed, no figure made.  With [1 <= min_bins] and
    [min_bins <= max_bins] the check of the bins passes. *)
Theorem interactive_histograms_checks_bins
    (adata : nat) (keys : list string) (bins : val) (min_bins max_bins : Z)
    (groups : option (list string)) (palette : option (list string))
    (display_all : bool) (w : world) :
  ((min_bins < 1 \/ max_bins < min_bins)%Z ->
     exists msg,
       interactive_histograms adata keys bins min_bins max_bins groups palette
                              display_all w
       = (Raise (ValueError msg), w))
  /\ ((1 <= min_bins /\ min_bins <= max_bins)%Z ->
     check_bins min_bins max_bins = Ok tt).
Proof.
  split.
  - intros H. destruct (check_bins_raises min_bins max_bins H) as [msg Hmsg].
    exists msg. unfold interactive_histograms, bind, lift. rewrite Hmsg. reflexivity.
  - intros H. apply check_bins_ok. exact H.
Qed.

Lemma interactive_histograms_checks_bins_witness :
  (exists msg,
     interactive_histograms 0 ["n_counts"; "n_genes"] (VStr "auto") 0 1000 None None true
                            Demo.world0
     = (Raise (ValueError msg), Demo.world0))
  /\ check_bins 1 1000 = Ok tt.
Proof.
  split.
  - apply (proj1 (interactive_histograms_checks_bins
                    0 ["n_counts"; "n_genes"] (VStr "auto") 0 1000 None None true
                    Demo.world0)).
    left. lia.
  - apply (proj2 (interactive_histograms_checks_bins
                    0 ["n_counts"; "n_genes"] (VStr "auto") 1 1000 None None true
                    Demo.world0)).
    lia.
Defined.

(** ** hist_thresh and multi_link: one pair of components per basis *)

Lemma wrap_components_nonempty (components : components_arg) (comps : list (list Z)) :
  wrap_components components = Ok comps -> 0 < length comps.
Proof.
  destruct components as [[| z l] | [| c l]]; simpl; intros H;
    try discriminate; injection H as <-; simpl; lia.
Qed.

Lemma length_concat_repeat {A} (l : list A) (k : nat) :
  length (concat (repeat l k)) = k * length l.
Proof.
  induction k as [| k IH]; simpl; [reflexivity |].
  rewrite length_app, IH. reflexivity.
Qed.

(** [l * k] repeats [l] cyclically. *)
Lemma lookup_concat_repeat {A} (l : list A) (k i : nat) :
  i < k * length l -> concat (repeat l k) !! i = l !! (i mod length l).
Proof.
  revert i. induction k as [| k IH]; intros i Hi; simpl in *; [lia |].
  destruct (Nat.lt_ge_cases i (length l)) as [Hlt | Hge].
  - rewrite lookup_app_l by exact Hlt. rewrite Nat.mod_small by exact Hlt. reflexivity.
  - rewrite lookup_app_r by exact Hge. rewrite IH by lia.
    replace i with ((i - length l) + 1 * length l) at 2 by lia.
    rewrite Nat.Div0.mod_add. reflexivity.
Qed.

Lemma broadcast_components_multiple (len : nat) (comps : list (list Z)) (k : nat) :
  0 < length comps -> length comps <> len -> 0 < k -> len = k * length comps ->
  broadcast_components len comps = Ok (concat (repeat comps k)).
Proof.
  intros Hm Hne Hk Hlen. unfold broadcast_components.
  destruct (Nat.eqb_spec (length comps) len) as [E | _]; [contradiction |].
  cbn [negb].
  destruct (length comps) as [| m] eqn:Em; [lia |].
  rewrite Hlen, Nat.Div0.mod_mul, Nat.div_mul, Nat.eqb_refl by lia.
  replace (Nat.leb (S m) (k * S m)) with true by (symmetry; apply Nat.leb_le; nia).
  reflexivity.
Qed.

Lemma broadcast_components_not_multiple (len : nat) (comps : list (list Z)) :
  0 < length comps -> length comps <> len ->
  ~ (exists k, 0 < k /\ len = k * length comps) ->
  broadcast_components len comps = Raise (AssertionError "").
Proof.
  intros Hm Hne Hno. unfold broadcast_components.
  destruct (Nat.eqb_spec (length comps) len) as [E | _]; [contradiction |].
  cbn [negb].
  destruct (length comps) as [| m] eqn:Em; [lia |].
  destruct (Nat.eqb_spec (len mod S m) 0) as [Hmod | _]; [| reflexivity].
  destruct (Nat.leb_spec (S m) len) as [Hle | _]; [| reflexivity].
  exfalso. apply Hno. exists (len / S m).
  apply Nat.Div0.div_exact in Hmod.
  split; [| lia].
  destruct (len / S m); lia.
Qed.

Lemma broadcast_components_same_length (comps : list (list Z)) :
  broadcast_components (length comps) comps = Ok comps.
Proof. unfold broadcast_components. rewrite Nat.eqb_refl. reflexivity. Qed.

Lemma wrap_components_nested (comps : list (list Z)) :
  0 < length comps -> wrap_components (Nested comps) = Ok comps.
Proof. destruct comps; simpl; [lia | reflexivity]. Qed.

(** C9: in [hist_thresh] and [multi_link], when the wrapped list of
    components and the list of bases differ in length, the check passes
    exactly when the number of bases is a positive multiple of the number of
    component pairs.  Then the pairs are repeated cyclically, one per basis,
    and the call goes on as if that list had been given; otherwise both
    functions raise an [AssertionError] before anything else happens. *)
Theorem components_broadcast
    (bases : list string) (components : components_arg) (comps : list (list Z)) :
  wrap_components components = Ok comps ->
  length comps <> length bases ->
  ((exists k, 0 < k /\ length bases = k * length comps) ->
     exists comps',
       broadcast_components (length bases) comps = Ok comps'
       /\ length comps' = length bases
       /\ (forall i, i < length bases -> comps' !! i = comps !! (i mod length comps))
       /\ (forall adata key bins w,
             hist_thresh adata key (BaseList bases) components bins w
             = hist_thresh adata key (BaseList bases) (Nested comps') bins w)
       /\ (forall adata key markers distance highlight_only w,
             multi_link adata bases components key markers distance highlight_only w
             = multi_link adata bases (Nested comps') key markers distance
                          highlight_only w))
  /\ (~ (exists k, 0 < k /\ length bases = k * length comps) ->
     broadcast_components (length bases) comps = Raise (AssertionError "")
     /\ (forall adata key bins w,
           hist_thresh adata key (BaseList bases) components bins w
           = (Raise (AssertionError ""), w))
     /\ (forall adata key markers distance highlight_only w,
           multi_link adata bases components key markers distance highlight_only w
           = (Raise (AssertionError ""), w))).
Proof.
  intros Hwrap Hne.
  pose proof (wrap_components_nonempty _ _ Hwrap) as Hm.
  split.
  - intros (k & Hk & Hlen).
    pose proof (broadcast_components_multiple _ _ k Hm Hne Hk Hlen) as Hb.
    assert (Hlen' : length (concat (repeat comps k)) = length bases)
      by (rewrite length_concat_repeat; lia).
    assert (Hpos : 0 < length (concat (repeat comps k))) by (rewrite Hlen'; nia).
    assert (Hsame : broadcast_components (length bases) (concat (repeat comps k))
                    = Ok (concat (repeat comps k)))
      by (rewrite <- Hlen'; apply broadcast_components_same_length).
    exists (concat (repeat comps k)).
    split; [exact Hb |]. split; [exact Hlen' |].
    split; [intros i Hi; apply lookup_concat_repeat; lia |].
    split; intros.
    + unfold hist_thresh, bind, lift. simpl len_bases.
      rewrite Hwrap, Hb, (wrap_components_nested _ Hpos), Hsame. reflexivity.
    + unfold multi_link, bind, lift.
      rewrite Hwrap, Hb, (wrap_components_nested _ Hpos), Hsame. reflexivity.
  - intros Hno.
    pose proof (broadcast_components_not_multiple _ _ Hm Hne Hno) as Hb.
    split; [exact Hb |].
    split; intros.
    + unfold hist_thresh, bind, lift. simpl len_bases. rewrite Hwrap, Hb. reflexivity.
    + unfold multi_link, bind, lift. rewrite Hwrap, Hb. reflexivity.
Qed.

Lemma components_broadcast_witness :
  (exists comps',
     broadcast_components 4 [[1; 2]; [2; 3]]%Z = Ok comps'
     /\ comps' = [[1; 2]; [2; 3]; [1; 2]; [2; 3]]%Z)
  /\ hist_thresh 0 "n_counts" (BaseList ["umap"; "pca"; "tsne"])
                 (Nested [[1; 2]; [2; 3]]%Z) (VStr "auto") Demo.world0
     = (Raise (AssertionError ""), Demo.world0).
Proof.
  split.
  - destruct (proj1 (components_broadcast ["umap"; "pca"; "tsne"; "diffmap"]
                       (Nested [[1; 2]; [2; 3]]%Z) [[1; 2]; [2; 3]]%Z
                       eq_refl ltac:(simpl; lia)))
      as (comps' & Hb & _).
    + exists 2. simpl. lia.
    + exists comps'. split; [exact Hb |].
      simpl in Hb. injection Hb as <-. reflexivity.
  - apply (proj2 (components_broadcast ["umap"; "pca"; "tsne"]
                    (Nested [[1; 2]; [2; 3]]%Z) [[1; 2]; [2; 3]]%Z
                    eq_refl ltac:(simpl; lia))).
    intros (k & Hk & Hlen). simpl in Hlen. lia.
Defined.

(** ** smooth_expression *)






(** Mode ['krr'] writes to none of the two dictionaries. *)
Lemma smooth_expression_krr_store
    (parse : string -> result node) (x y : list cell) (n_points : nat)
    (kernel_expr : option string) (default verbose : bool)
    (opt_params : gmap string val) (st : kstore) :
  snd (smooth_expression parse x y n_points "krr" kernel_expr default verbose
                         opt_params st) = st.
Proof.
  unfold smooth_expression. simpl String.eqb. cbv iota.
  destruct (match dict_get opt_params "gamma" VNone with
            | VNone => _ | _ => _ end) as [[g o] | e]; [| reflexivity].
  destruct (takes _ _); reflexivity.
Qed.






(** *** What a call leaves in the dictionaries of the caller *)

Arguments operators : simpl never.

(** [_eval] writes nothing when there is no entry ['type'] to pop. *)
Lemma _eval_without_type (kernel_expr : string) (default : bool) (n : node) (st : kstore) :
  no_type_key st -> snd (_eval kernel_expr default n st) = st.
Proof.
  revert st. induction n as [q | id | l IHl op r IHr | op n IHn | kind];
    intros st Hst; simpl; try reflexivity.
  - destruct Hst as [Hkp Hkdp].
    destruct (negb default && negb (bool_decide (is_Some (kernel_params st !! id))));
      [reflexivity |].
    destruct (kernel_params st !! id) as [params |] eqn:E.
    + rewrite (delete_id params "type") by exact (Hkp id params E).
      rewrite insert_id by exact E.
      destruct (kernels _); destruct st; reflexivity.
    + rewrite (delete_id _ "type") by exact Hkdp.
      destruct (kernels _); destruct st; reflexivity.
  - destruct (operators op); [| reflexivity].
    pose proof (IHl st Hst) as Hl.
    destruct (_eval kernel_expr default l st) as [[vl | e] st1]; simpl in Hl; subst st1;
      [| reflexivity].
    pose proof (IHr st Hst) as Hr.
    destruct (_eval kernel_expr default r st) as [[vr | e] st2]; simpl in Hr; subst st2;
      reflexivity.
Qed.

(** With such dictionaries a call hands them back as they were, so a second
    call with the same arguments repeats the first. *)
Lemma smooth_expression_repeats
    (parse : string -> result node) (x y : list cell) (n_points : nat) (mode : string)
    (kernel_expr : option string) (default verbose : bool)
    (opt_params : gmap string val) (st : kstore) :
  no_type_key st ->
  let call := smooth_expression parse x y n_points mode kernel_expr default verbose
                                opt_params in
  snd (call st) = st /\ call (snd (call st)) = call st.
Proof.
  intros Hst call.
  assert (H : snd (call st) = st).
  { unfold call. destruct (String.eqb_spec mode "krr") as [-> | Hk].
    - apply smooth_expression_krr_store.
    - unfold smooth_expression. rewrite (proj2 (String.eqb_neq _ _) Hk).
      destruct (String.eqb mode "gp"); [| reflexivity].
      unfold eval_kernel.
      destruct (sole_key kernel_expr st) as [expr | e]; [| reflexivity].
      destruct (parse expr) as [body | e]; [| reflexivity].
      pose proof (_eval_without_type expr default body st Hst) as He.
      destruct (_eval expr default body st) as [[kernel | e] st']; simpl in *;
        [destruct (takes _ _) |]; exact He. }
  split; [exact H | rewrite H; reflexivity].
Qed.

(** C3 at the failing input: [kernel_params = {'a': {'type': 'const'}}]
    given to two successive calls in mode ['gp'] with [kernel_expr='a'].
    The first call fits a Gaussian process with a [ConstantKernel] and
    removes ['type'] from the dictionary of the caller; the second call,
    with the same dictionary object, fits one with an [RBF] kernel, and the
    two means differ. *)
Theorem smooth_expression_second_call_differs :
  let call :=
    smooth_expression Demo.parse_name [CNum 0; CNum 1] [CNum 1; CNum 2] 3 "gp"
                      (Some "a") false false ∅ in
  exists m1 m2 st1,
    call Demo.const_params
    = ([ECompute (GaussianProcessFit m1)],
       Ok (Linspace 3, GpMean m1 3, GpCov m1 3), st1)
    /\ call st1
       = ([ECompute (GaussianProcessFit m2)],
          Ok (Linspace 3, GpMean m2 3, GpCov m2 3), st1)
    /\ gp_kernel m1 = KObj ConstantKernel ∅
    /\ gp_kernel m2 = KObj RBF ∅
    /\ kernel_params st1 !! "a" = Some ∅
    /\ kernel_params Demo.const_params !! "a" = Some {[ "type" := VStr "const" ]}
    /\ GpMean m1 3 <> GpMean m2 3.
Proof.
  intros call. do 3 eexists.
  split; [reflexivity |].
  split; [reflexivity |].
  split; [reflexivity |].
  split; [reflexivity |].
  split; [reflexivity |].
  split; [reflexivity |].
  intros H. injection H as H. discriminate H.
Qed.

(** ** pred_exp *)

Lemma mem_app (k : string) (l1 l2 : list string) :
  PyStr.mem k (l1 ++ l2) = PyStr.mem k l1 || PyStr.mem k l2.
Proof. unfold PyStr.mem. apply existsb_app. Qed.

(** C8: [pred_exp] reads the name [X_test], which is neither a local
    variable (the parameter is [x_test]) nor bound by the module; provided
    the star import and the builtins do not bind it either, every call ends
    in a [NameError] and no array is returned. *)
Theorem pred_exp_unbound_name (star builtins : list string) (x_test y_test : list cell) :
  PyStr.mem "X_test" star = false ->
  PyStr.mem "X_test" builtins = false ->
  pred_exp star builtins x_test y_test = Raise (NameError "X_test")
  /\ ~ (exists y_pred, pred_exp star builtins x_test y_test = Ok y_pred).
Proof.
  intros Hstar Hbuiltins.
  assert (H : pred_exp star builtins x_test y_test = Raise (NameError "X_test")).
  { unfold pred_exp, resolve, module_globals. simpl List.find. cbv iota.
    rewrite mem_app, Hstar, Hbuiltins. reflexivity. }
  split; [exact H |]. intros [y_pred Hy]. congruence.
Qed.

Lemma pred_exp_unbound_name_witness :
  pred_exp Demo.star Demo.builtins [CNum 0; CNum (1 # 2); CNum 1]
           [CNum 1; CNum 2; CNum 3]
  = Raise (NameError "X_test").
Proof.
  apply (pred_exp_unbound_name Demo.star Demo.builtins
           [CNum 0; CNum (1 # 2); CNum 1] [CNum 1; CNum 2; CNum 3]
           eq_refl eq_refl).
Defined.

(** ** plot_velocity: what is returned *)

(** C7 at the failing input: two genes, both present, two paths,
    [return_values=True].  Both genes are computed and drawn, but the value
    returned holds the arrays of the last gene [g2] only: two entries per
    column, one per path; the expression of [g1] is not in it. *)
Theorem plot_velocity_returns_last_gene_only :
  exists data w',
    plot_velocity Demo.parse_name 0 [["a"]; ["b"]] (Some ["g1"; "g2"]) 5 "X" "gp" true
                  (VFloat (1 # 5)) "louvain" "louvain" true
                  "velocity" "velocity_dynamical" Demo.no_kwargs Demo.world0
    = (Ok (Some data), w')
    /\ map fst data = ["expr"; "dpt"; "louvain"; "x_test"; "x_mean"; "x_cov"]
    /\ frame_get "expr" data = Some [Cells [CNum 0; CNum 3]; Cells [CNum 5]]
    /\ gene_expression Demo.adata "g2" "X" = Ok [CNum 0; CNum 3; CNum 5]
    /\ gene_expression Demo.adata "g1" "X" = Ok [CNum 1; CNum 2; CNum 4]
    /\ List.filter (fun e => match e with EFigure _ | EShow _ => true | _ => false end)
                   (trace w')
       = [EFigure "g1"; EFigure "g2"; EShow 2].
Proof.
  do 2 eexists.
  split; [vm_compute; reflexivity |].
  repeat split; reflexivity.
Qed.

(** ** Missing keys *)

Lemma world_eta (w : world) : mk_world (heap w) (trace w ++ []) = w.
Proof. destruct w. simpl. rewrite app_nil_r. reflexivity. Qed.

Lemma fails_quietly_raise {A} (e : exn) (w : world) : fails_quietly (@raise A e) w.
Proof. exists e, []. rewrite world_eta. split; reflexivity. Qed.

Lemma fails_quietly_lift_bind {A B} (r : result A) (k : A -> M B) (w : world) :
  (forall a, r = Ok a -> fails_quietly (k a) w) -> fails_quietly (bind (lift r) k) w.
Proof.
  intros H. unfold bind, lift. destruct r as [a | e].
  - apply H. reflexivity.
  - exists e, []. rewrite world_eta. split; reflexivity.
Qed.

Lemma fails_quietly_raise_if_bind {B} (c : bool) (e : exn) (k : unit -> M B) (w : world) :
  (c = false -> fails_quietly (k tt) w) -> fails_quietly (bind (raise_if c e) k) w.
Proof.
  intros H. unfold bind, raise_if. destruct c.
  - exists e, []. rewrite world_eta. split; reflexivity.
  - apply H. reflexivity.
Qed.

Lemma fails_quietly_read_bind {B} (l : nat) (a : AnnData) (k : AnnData -> M B) (w : world) :
  heap w !! l = Some a -> fails_quietly (k a) w -> fails_quietly (bind (read l) k) w.
Proof. intros Hl H. unfold fails_quietly in *. unfold bind, read. rewrite Hl. exact H. Qed.

Lemma fails_quietly_emit_bind {B} (ev : event) (k : unit -> M B) (w : world) :
  quiet_event ev = true ->
  fails_quietly (k tt) (mk_world (heap w) (trace w ++ [ev])) ->
  fails_quietly (bind (emit ev) k) w.
Proof.
  intros Hq (e & out & H & Hout). exists e, (ev :: out).
  simpl in H. unfold bind, emit. rewrite H. simpl. rewrite <- app_assoc. simpl.
  split; [reflexivity |]. rewrite Hq, Hout. reflexivity.
Qed.

(** The loop [for k in cell_keys: ... adata.obs[k]] stops at a missing key. *)
Lemma for_each_getitem_missing {V B} (d : gmap string V) (keys : list string) (k : string)
    (rest : list V -> M B) (w : world) :
  In k keys -> has_key d k = false ->
  fails_quietly (bind (for_each (fun k => lift (getitem d k)) keys) rest) w.
Proof.
  intros Hin Hk.
  assert (H : exists k', for_each (fun k => lift (getitem d k)) keys w
                         = (Raise (KeyError k'), w)).
  { induction keys as [| x keys IH]; [destruct Hin |].
    simpl. unfold bind at 1, lift at 1, getitem at 1.
    destruct (d !! x) as [v |] eqn:E.
    - destruct Hin as [-> | Hin].
      + unfold has_key in Hk. rewrite E in Hk.
        rewrite bool_decide_eq_false in Hk. exfalso. apply Hk. eauto.
      + destruct (IH Hin) as [k' Hk']. exists k'. unfold bind. rewrite Hk'. reflexivity.
    - exists x. reflexivity. }
  destruct H as [k' Hk']. exists (KeyError k'), [].
  unfold bind. rewrite Hk', world_eta. split; reflexivity.
Qed.

Lemma check_keys_missing (a : AnnData) (keys : list string) (key : string) :
  In key keys -> key_known a key = false ->
  exists msg, check_keys a keys = Raise (ValueError msg).
Proof.
  intros Hin Hk. induction keys as [| x keys IH]; [destruct Hin |].
  simpl. destruct (key_known a x) eqn:E.
  - destruct Hin as [-> | Hin]; [congruence | exact (IH Hin)].
  - eexists. reflexivity.
Qed.

(** A comma-separated [cell_keys] with a key that is not a column of
    [adata.obs] fails the assertion. *)
Lemma parse_cell_keys_missing (a : AnnData) (cell_keys : keys_arg) (k : string) :
  In k (requested_keys cell_keys) -> has_key (obs a) k = false ->
  (exists l, cell_keys = KeysList l /\ parse_cell_keys a cell_keys = Ok l /\ In k l)
  \/ parse_cell_keys a cell_keys
     = Raise (AssertionError "Not all keys are in `adata.obs.keys()`.").
Proof.
  intros Hin Hk. destruct cell_keys as [s | l]; simpl in *.
  - right. destruct (PyStr.list_eqb (PyStr.split_keys s) [""]); [destruct Hin |].
    simpl. destruct (forallb (has_key (obs a)) (PyStr.split_keys s)) eqn:E; [| reflexivity].
    rewrite forallb_forall in E. specialize (E k Hin). congruence.
  - left. exists l. auto.
Qed.

Lemma select_map_filter {A} (f : A -> bool) (l : list A) :
  select (map f l) l = List.filter f l.
Proof.
  induction l as [| x l IH]; simpl; [reflexivity |].
  destruct (f x); rewrite IH; reflexivity.
Qed.

Lemma forallb_id_map {A} (f : A -> bool) (l : list A) :
  forallb id (map f l) = true -> List.filter f l = l.
Proof.
  induction l as [| x l IH]; simpl; [reflexivity |].
  unfold id at 1. destruct (f x); simpl; [| discriminate].
  intros H. rewrite (IH H). reflexivity.
Qed.

(** Against C1 as the specification states it: in [plot_velocity] a gene
    that is in none of the tables does not stop the call, which goes on to
    smooth and plot the genes it did find. *)
Lemma filter_negb_nil {A} (f : A -> bool) (l : list A) :
  forallb id (map f l) = true -> List.filter (fun x => negb (f x)) l = [].
Proof.
  induction l as [| x l IH]; [reflexivity |].
  simpl. unfold id at 1. destruct (f x); [exact IH | discriminate].
Qed.

Lemma filter_negb_cons {A} (f : A -> bool) (l : list A) :
  forallb id (map f l) = false -> List.filter (fun x => negb (f x)) l <> [].
Proof.
  induction l as [| x l IH]; [discriminate |].
  simpl. unfold id at 1. destruct (f x); [exact IH | discriminate].
Qed.

Lemma plot_velocity_missing_gene_goes_on :
  key_known Demo.adata "zzz" = false
  /\ exists w',
       plot_velocity Demo.parse_name 0 [["a"]] (Some ["zzz"; "g1"]) 5 "X" "krr" true
                     (VFloat (1 # 5)) "louvain" "louvain" false
                     "velocity" "velocity_dynamical" Demo.no_kwargs Demo.world0
       = (Ok None, w')
       /\ quiet (trace w') = false
       /\ trace w' !! 1
          = Some (EPrint "Could not find the following genes: `{}`." [VStr "zzz"])
       /\ last (trace w') = Some (EShow 1).
Proof.
  split; [reflexivity |]. eexists.
  split; [vm_compute; reflexivity |].
  repeat split; reflexivity.
Qed.

(** C1, amended: a key in [keys] that is in none of [adata.obs],
    [adata.var] and [adata.var_names] makes [interactive_histograms] raise a
    [ValueError] with nothing done; a key in [cell_keys] that is not a
    column of [adata.obs] makes [highlight_de] and [plot_cell_indices] raise
    before anything is computed, drawn or shown; [plot_velocity] does not
    raise for the genes it cannot find: it goes on with those that are in
    [adata.var_names], after a message when some were dropped. *)
Theorem missing_keys
    (adata : nat) (a : AnnData) (w : world) (k : string) :
  heap w !! adata = Some a ->
  (forall keys bins min_bins max_bins groups palette display_all,
      In k keys -> key_known a k = false ->
      exists msg,
        interactive_histograms adata keys bins min_bins max_bins groups palette
                               display_all w
        = (Raise (ValueError msg), w))
  /\ (forall basis components de_keys cell_keys n_neighbors,
      In k (requested_keys cell_keys) -> has_key (obs a) k = false ->
      fails_quietly (highlight_de adata basis components de_keys cell_keys n_neighbors) w)
  /\ (forall key basis components cell_keys,
      In k (requested_keys cell_keys) -> has_key (obs a) k = false ->
      fails_quietly (plot_cell_indices adata key basis components cell_keys) w)
  /\ (forall genes n_velocity_genes,
      let found := List.filter (fun gene => PyStr.mem gene (var_names a)) genes in
      let missing :=
        List.filter (fun gene => negb (PyStr.mem gene (var_names a))) genes in
      select_genes a (Some genes) n_velocity_genes w
      = (Ok found,
         mk_world (heap w)
           (trace w
            ++ match missing with
               | [] => []
               | _ => [EPrint "Could not find the following genes: `{}`."
                              (map VStr missing)]
               end))
      /\ (In k genes -> PyStr.mem k (var_names a) = false ->
          In k missing /\ ~ In k found)).
Proof.
  intros Hl. split; [| split; [| split]].
  - intros keys bins min_bins max_bins groups palette display_all Hin Hk.
    unfold interactive_histograms, bind, lift.
    destruct (check_bins min_bins max_bins) as [[] | e] eqn:Eb.
    + unfold read. rewrite Hl.
      destruct (check_keys_missing a keys k Hin Hk) as [msg ->].
      exists msg. reflexivity.
    + unfold check_bins in Eb.
      destruct (min_bins <? 1)%Z; [injection Eb as <-; eexists; reflexivity |].
      destruct (max_bins <? min_bins)%Z; [injection Eb as <-; eexists; reflexivity |].
      discriminate.
  - intros basis components de_keys cell_keys n_neighbors Hin Hk.
    unfold highlight_de.
    apply (fails_quietly_read_bind _ a); [exact Hl |].
    apply fails_quietly_raise_if_bind; intros _.
    apply fails_quietly_lift_bind; intros de_keys' _.
    apply fails_quietly_lift_bind; intros cell_keys' Hparse.
    destruct (parse_cell_keys_missing a cell_keys k Hin Hk)
      as [(l & -> & Hp & Hinl) | Hp]; [| congruence].
    assert (cell_keys' = l) by congruence. subst cell_keys'.
    apply fails_quietly_raise_if_bind; intros _.
    apply fails_quietly_lift_bind; intros key _.
    unfold extract_embedding.
    unfold bind at 1. unfold bind at 1. unfold lift at 1.
    destruct (getitem (obsm a) ("X_" ++ basis)) as [m | e].
    + fold (bind (emit (EExtract basis components))
                 (fun _ : unit =>
                    bind (for_each (fun k0 => lift (getitem (obs a) k0))
                            (if PyStr.mem key l then l else key :: l))
                         (fun _ =>
                            bind (emit (ECompute (KNeighborsFit n_neighbors)))
                                 (fun _ => bind (emit (ECompute ConvexHulls))
                                   (fun _ => bind (lift (_create_mapper a key))
                                     (fun col => bind (lift (cat_categories col))
                                       (fun _ => bind (emit (EFigure ""))
                                         (fun _ => emit (EShow 1)))))))) w).
      apply fails_quietly_emit_bind; [reflexivity |].
      apply (for_each_getitem_missing _ _ k); [| exact Hk].
      destruct (PyStr.mem key l); [exact Hinl | right; exact Hinl].
    + exists e, []. rewrite world_eta. split; reflexivity.
  - intros key basis components cell_keys Hin Hk.
    unfold plot_cell_indices.
    apply (fails_quietly_read_bind _ a); [exact Hl |].
    apply fails_quietly_raise_if_bind; intros _.
    apply fails_quietly_raise_if_bind; intros _.
    apply fails_quietly_lift_bind; intros cell_keys' Hparse.
    destruct (parse_cell_keys_missing a cell_keys k Hin Hk)
      as [(l & -> & Hp & Hinl) | Hp]; [| congruence].
    assert (cell_keys' = l) by congruence. subst cell_keys'.
    unfold extract_embedding.
    unfold bind at 1. unfold bind at 1. unfold lift at 1.
    destruct (getitem (obsm a) ("X_" ++ basis)) as [m | e].
    + fold (bind (emit (EExtract basis components))
                 (fun _ : unit =>
                    bind (for_each (fun k0 => lift (getitem (obs a) k0)) l)
                         (fun _ => bind (emit (EFigure key))
                                        (fun _ => emit (EShow 1)))) w).
      apply fails_quietly_emit_bind; [reflexivity |].
      apply (for_each_getitem_missing _ _ k); [exact Hinl | exact Hk].
    + exists e, []. rewrite world_eta. split; reflexivity.
  - intros genes n_velocity_genes found missing. split.
    + unfold select_genes.
      destruct (forallb id (map (fun gene => PyStr.mem gene (var_names a)) genes)) eqn:E;
        simpl negb; cbv iota.
      * unfold found, missing.
        rewrite (filter_negb_nil _ _ E). cbv iota. rewrite world_eta.
        unfold ret. rewrite (forallb_id_map _ _ E). reflexivity.
      * assert (Hm : missing <> []) by (unfold missing; apply filter_negb_cons; exact E).
        assert (He : (trace w ++ match missing with
                                | [] => []
                                | _ => [EPrint "Could not find the following genes: `{}`."
                                               (map VStr missing)]
                                end)
                     = trace w ++ [EPrint "Could not find the following genes: `{}`."
                                          (map VStr missing)])
          by (destruct missing; [congruence | reflexivity]).
        rewrite He. unfold found, missing.
        unfold bind, emit, ret. simpl.
        rewrite select_map_filter. do 4 f_equal.
        rewrite <- (select_map_filter (fun gene => negb (PyStr.mem gene (var_names a)))).
        rewrite map_map. reflexivity.
    + intros Hin Hk. unfold found, missing. rewrite !filter_In, Hk. split.
      * split; [exact Hin | reflexivity].
      * intros [_ H]. discriminate.
Qed.

Lemma missing_keys_witness :
  (exists msg,
     interactive_histograms 0 ["n_counts"; "n_genes"] (VStr "auto") 1 1000 None None true
                            Demo.world0
     = (Raise (ValueError msg), Demo.world0))
  /\ fails_quietly (plot_cell_indices 0 "louvain" "umap" [1; 2]%Z
                                      (KeysStr "louvain, n_counts")) Demo.world0.
Proof.
  pose proof (missing_keys 0 Demo.adata Demo.world0 "n_counts" eq_refl) as (H1 & _ & H3 & _).
  split.
  - apply H1; [left; reflexivity | reflexivity].
  - apply H3; [right; left; reflexivity | reflexivity].
Defined.

(** ** Prerequisites *)

(** Against C5 as the specification states it: with pseudotime computed
    and neither ['velocity'] nor ['velocity_dynamical'] in [adata.layers],
    [plot_velocity] raises nothing. *)
Lemma plot_velocity_without_velocity_layers :
  has_key (layers Demo.adata) "velocity" = false
  /\ has_key (layers Demo.adata) "velocity_dynamical" = false
  /\ exists w',
       plot_velocity Demo.parse_name 0 [["a"; "b"]] (Some ["g1"]) 5 "X" "gp" true
                     (VFloat (1 # 5)) "louvain" "louvain" false
                     "velocity" "velocity_dynamical" Demo.no_kwargs Demo.world0
       = (Ok None, w')
       /\ last (trace w') = Some (EShow 1).
Proof.
  split; [reflexivity |]. split; [reflexivity |]. eexists.
  split; [vm_compute; reflexivity |]. reflexivity.
Qed.

Lemma bind_ext {A B} (m : M A) (k1 k2 : A -> M B) (w : world) :
  (forall a w', k1 a w' = k2 a w') -> bind m k1 w = bind m k2 w.
Proof. intros H. unfold bind. destruct (m w) as [[a | e] w']; [apply H | reflexivity]. Qed.

Lemma check_prerequisites_ignores_layers (a : AnnData) (ss dyn ss' dyn' : string) :
  check_prerequisites a ss dyn = check_prerequisites a ss' dyn'.
Proof.
  unfold check_prerequisites.
  destruct (negb (has_key (obs a) "dpt_pseudotime")); [reflexivity |].
  destruct (negb (has_key (layers a) ss)), (negb (has_key (layers a) dyn)),
           (negb (has_key (layers a) ss')), (negb (has_key (layers a) dyn'));
    reflexivity.
Qed.

Lemma check_prerequisites_no_dpt (a : AnnData) (ss dyn : string) :
  has_key (obs a) "dpt_pseudotime" = false ->
  check_prerequisites a ss dyn = Raise (ValueError "Compute `dpt` first.").
Proof. intros H. unfold check_prerequisites. rewrite H. reflexivity. Qed.

(** C5, amended: [plot_velocity] raises, before anything is computed,
    drawn or shown, when ['dpt_pseudotime'] is not a column of [adata.obs],
    with [ValueError('Compute `dpt` first.')] once the paths are accepted;
    the keys of the velocity layers are not checked, and what
    [plot_velocity] does is the same whatever they are; [highlight_de]
    raises [ValueError('Run differential expression first.')] with nothing
    done when ['rank_genes_groups'] is not in [adata.uns]. *)
Theorem missing_prerequisites
    (parse : string -> result node) (adata : nat) (a : AnnData) (w : world) :
  heap w !! adata = Some a ->
  (forall paths genes n_velocity_genes exp_key mode smooth length_scale color_key
          path_key return_values velo_key_ss velo_key_dyn kwargs,
      has_key (obs a) "dpt_pseudotime" = false ->
      exists e out,
        plot_velocity parse adata paths genes n_velocity_genes exp_key mode smooth
                      length_scale color_key path_key return_values
                      velo_key_ss velo_key_dyn kwargs w
        = (Raise e, mk_world (heap w) (trace w ++ out))
        /\ quiet out = true
        /\ (check_paths a path_key paths = Ok tt ->
            e = ValueError "Compute `dpt` first."))
  /\ (forall paths genes n_velocity_genes exp_key mode smooth length_scale color_key
             path_key return_values kwargs ss dyn ss' dyn',
      plot_velocity parse adata paths genes n_velocity_genes exp_key mode smooth
                    length_scale color_key path_key return_values ss dyn kwargs w
      = plot_velocity parse adata paths genes n_velocity_genes exp_key mode smooth
                      length_scale color_key path_key return_values ss' dyn' kwargs w)
  /\ (forall basis components de_keys cell_keys n_neighbors,
      has_key (uns a) "rank_genes_groups" = false ->
      highlight_de adata basis components de_keys cell_keys n_neighbors w
      = (Raise (ValueError "Run differential expression first."), w)).
Proof.
  intros Hl. split; [| split].
  - intros paths genes n_velocity_genes exp_key mode smooth length_scale color_key
           path_key return_values velo_key_ss velo_key_dyn kwargs Hdpt.
    unfold plot_velocity.
    set (warn := if String.eqb mode "krr"
                 then [EWarn "KRR is experimental, consider using mode=`gp`"]
                 else []).
    assert (Hw : quiet warn = true) by (unfold warn; destruct (String.eqb mode "krr"); reflexivity).
    assert (Hrun : forall B (k : unit -> M B),
               bind (if String.eqb mode "krr"
                     then emit (EWarn "KRR is experimental, consider using mode=`gp`")
                     else ret tt) k w
               = k tt (mk_world (heap w) (trace w ++ warn))).
    { intros B k. unfold warn, bind. destruct (String.eqb mode "krr"); simpl.
      - reflexivity.
      - rewrite world_eta. reflexivity. }
    rewrite Hrun. unfold bind, read, lift. simpl heap. rewrite Hl.
    destruct (check_paths a path_key paths) as [[] | e].
    + rewrite (check_prerequisites_no_dpt a _ _ Hdpt).
      exists (ValueError "Compute `dpt` first."), warn. auto.
    + exists e, warn. split; [reflexivity |]. split; [exact Hw | discriminate].
  - intros. unfold plot_velocity.
    apply bind_ext; intros [] w1.
    apply bind_ext; intros a1 w2.
    apply bind_ext; intros [] w3.
    rewrite (check_prerequisites_ignores_layers a1 ss dyn ss' dyn'). reflexivity.
  - intros basis components de_keys cell_keys n_neighbors Hr.
    unfold highlight_de, bind, read. rewrite Hl. rewrite Hr. reflexivity.
Qed.

Lemma missing_prerequisites_witness :
  highlight_de 0 "umap" [1; 2]%Z (KeysStr "names, scores") (KeysStr "") 5 Demo.world0
  = (Raise (ValueError "Run differential expression first."), Demo.world0).
Proof.
  apply (proj2 (proj2 (missing_prerequisites Demo.parse_name 0 Demo.adata Demo.world0
                         eq_refl))).
  reflexivity.
Defined.

(** With [return_values=False] the value of a call that returns is [None]. *)
Lemma plot_velocity_returns_none
    (parse : string -> result node) (adata : nat) (paths : list (list string))
    (genes : option (list string)) (n_velocity_genes : nat) (exp_key mode : string)
    (smooth : bool) (length_scale : val) (color_key path_key : string)
    (velo_key_ss velo_key_dyn : string) (kwargs : smooth_kwargs) (w : world)
    (v : option frame_data) :
  fst (plot_velocity parse adata paths genes n_velocity_genes exp_key mode smooth
                     length_scale color_key path_key false velo_key_ss velo_key_dyn
                     kwargs w) = Ok v ->
  v = None.
Proof.
  unfold plot_velocity, bind.
  repeat match goal with
         | |- context [match ?m ?w with _ => _ end] =>
             match type of (m w) with
             | (result _ * world)%type => destruct (m w) as [[? | ?] ?]
             end
         end; simpl; intros H; try discriminate; unfold ret in H; simpl in H; congruence.
Qed.

(** * Further properties of the code *)

(** ** _cmap_to_colors: one colour string per row *)

Module ColorsFacts.
Import Colors.

Lemma below_by_cases (bound : nat) (P : N -> bool) :
  forallb (fun n => P (N.of_nat n)) (seq 0 bound) = true ->
  forall v, (v < N.of_nat bound)%N -> P v = true.
Proof.
  intros H v Hv. rewrite forallb_forall in H.
  rewrite <- (N2Nat.id v). apply H. apply in_seq. lia.
Qed.

Lemma format_byte (v : N) :
  (v < 256)%N -> upper (format_02x v) = byte_chars v.
Proof.
  intros Hv.
  apply String.eqb_eq.
  apply (below_by_cases 256 (fun v => String.eqb (upper (format_02x v)) (byte_chars v)));
    [vm_compute; reflexivity | exact Hv].
Qed.

Lemma hex_value_digit (d : N) :
  (d < 16)%N -> hex_value (upper_char (hex_char d)) = d.
Proof.
  intros Hd. apply N.eqb_eq.
  apply (below_by_cases 16 (fun d => N.eqb (hex_value (upper_char (hex_char d))) d));
    [vm_compute; reflexivity | exact Hd].
Qed.

Lemma byte_chars_inj (v v' : N) :
  (v < 256)%N -> (v' < 256)%N -> byte_chars v = byte_chars v' -> v = v'.
Proof.
  intros Hv Hv' H. unfold byte_chars in H. injection H as H1 H0.
  apply (f_equal hex_value) in H1, H0.
  assert (Hq : (v / 16 < 16)%N) by (apply N.Div0.div_lt_upper_bound; lia).
  assert (Hq' : (v' / 16 < 16)%N) by (apply N.Div0.div_lt_upper_bound; lia).
  rewrite !hex_value_digit in H1, H0 by (try assumption; apply N.mod_lt; lia).
  rewrite (N.div_mod v 16), (N.div_mod v' 16) by lia. congruence.
Qed.

Lemma concat_cons (x : string) (xs : list string) :
  String.concat EmptyString (x :: xs) = (x ++ String.concat EmptyString xs)%string.
Proof.
  destruct xs as [| y ys]; [| reflexivity].
  cbn [String.concat]. induction x as [| c x IH]; [reflexivity |].
  change (String c x = String c (x ++ EmptyString)%string). f_equal. exact IH.
Qed.

(** The characters after ['#'], for channels that are bytes. *)
Lemma channels_string (l : list N) :
  Forall (fun v => (v < 256)%N) l ->
  String.concat EmptyString (map (fun val => upper (format_02x val)) l)
  = String.concat EmptyString (map byte_chars l).
Proof.
  induction 1 as [| v l Hv Hl IH]; [reflexivity |].
  cbn [map]. rewrite !concat_cons, IH, (format_byte v Hv). reflexivity.
Qed.

Lemma channels_length (l : list N) :
  String.length (String.concat EmptyString (map byte_chars l)) = 2 * length l.
Proof.
  induction l as [| v l IH]; [reflexivity |].
  cbn [map]. rewrite concat_cons. unfold byte_chars at 1.
  change (S (S (String.length (String.concat EmptyString (map byte_chars l))))
          = 2 * length (v :: l)).
  rewrite IH. cbn [length]. lia.
Qed.

Lemma channels_inj (l l' : list N) :
  Forall (fun v => (v < 256)%N) l -> Forall (fun v => (v < 256)%N) l' ->
  String.concat EmptyString (map byte_chars l)
  = String.concat EmptyString (map byte_chars l') ->
  l = l'.
Proof.
  intros Hl. revert l'. induction Hl as [| v l Hv Hl IH]; intros l' Hl' H.
  - destruct l' as [| v' l']; [reflexivity |].
    cbn [map] in H. rewrite concat_cons in H. discriminate H.
  - destruct Hl' as [| v' l' Hv' Hl'].
    + cbn [map] in H. rewrite concat_cons in H. discriminate H.
    + cbn [map] in H. rewrite !concat_cons in H.
      cbn [byte_chars append] in H. injection H as H1 H0 H.
      f_equal.
      * apply byte_chars_inj; [assumption | assumption |].
        unfold byte_chars. congruence.
      * apply IH; assumption.
Qed.

Lemma Forall_removelast {A} (P : A -> Prop) (l : list A) :
  Forall P l -> Forall P (removelast l).
Proof.
  induction 1 as [| x l Hx Hl IH]; [constructor |].
  destruct l as [| y l]; [constructor |].
  change (removelast (x :: y :: l)) with (x :: removelast (y :: l)).
  constructor; assumption.
Qed.

Lemma removelast_length_pred {A} (l : list A) :
  length (removelast l) = length l - 1.
Proof.
  induction l as [| x l IH]; [reflexivity |].
  destruct l as [| y l]; [reflexivity |].
  change (removelast (x :: y :: l)) with (x :: removelast (y :: l)).
  cbn [length] in *. lia.
Qed.

(** X1: [_cmap_to_colors] on rows of bytes: one string per row; a string is
    ['#'] and two characters per channel but the last one (alpha); two
    rows get the same string only when they agree on these channels. *)
Theorem cmap_to_colors_rows (cmap_vals : list (list N)) :
  Forall (Forall (fun v => (v < 256)%N)) cmap_vals ->
  length (_cmap_to_colors cmap_vals) = length cmap_vals
  /\ (forall i item,
        cmap_vals !! i = Some item ->
        _cmap_to_colors cmap_vals !! i = Some (color_of item)
        /\ String.length (color_of item) = 1 + 2 * (length item - 1))
  /\ (forall item item',
        In item cmap_vals -> In item' cmap_vals ->
        color_of item = color_of item' -> removelast item = removelast item').
Proof.
  intros Hb. split; [apply length_map |]. split.
  - intros i item Hi. split.
    + unfold _cmap_to_colors. rewrite list_lookup_fmap, Hi. reflexivity.
    + assert (Hitem : Forall (fun v => (v < 256)%N) item).
      { rewrite Forall_forall in Hb. apply Hb.
        apply list_elem_of_lookup. eauto. }
      unfold color_of. cbn [String.length].
      rewrite (channels_string _ (Forall_removelast _ _ Hitem)), channels_length.
      rewrite (removelast_length_pred item). reflexivity.
  - intros item item' Hin Hin' H.
    rewrite Forall_forall in Hb.
    apply list_elem_of_In in Hin, Hin'.
    pose proof (Forall_removelast _ _ (Hb item Hin)) as Hitem.
    pose proof (Forall_removelast _ _ (Hb item' Hin')) as Hitem'.
    unfold color_of in H. injection H as H.
    rewrite (channels_string _ Hitem), (channels_string _ Hitem') in H.
    apply channels_inj; assumption.
Qed.

Lemma cmap_to_colors_rows_witness :
  _cmap_to_colors [[165; 0; 38; 255]; [49; 54; 149; 255]]%N = ["#A50026"; "#313695"]
  /\ length (_cmap_to_colors [[165; 0; 38; 255]; [49; 54; 149; 255]]%N) = 2.
Proof.
  split; [reflexivity |].
  apply (proj1 (cmap_to_colors_rows [[165; 0; 38; 255]; [49; 54; 149; 255]]%N
                  ltac:(repeat constructor))).
Defined.

End ColorsFacts.

(** ** The histogram loop of the slider callback *)

Module RebinFacts.
Import Rebin.

Lemma first_bin_lt (v : Q) (r_edges : list Q) (j : nat) :
  first_bin v r_edges = Some j -> j < length r_edges.
Proof.
  revert j. induction r_edges as [| r rs IH]; intros j H; simpl in H; [discriminate |].
  destruct (Qle_bool v r).
  - injection H as <-. simpl. lia.
  - destruct (first_bin v rs) as [j' |]; [| discriminate].
    injection H as <-. specialize (IH j' eq_refl). simpl. lia.
Qed.

Lemma first_bin_covered (v : Q) (r_edges : list Q) :
  covered r_edges v = bool_decide (is_Some (first_bin v r_edges)).
Proof.
  unfold covered. induction r_edges as [| r rs IH]; [reflexivity |].
  cbn [existsb first_bin]. destruct (Qle_bool v r); [reflexivity |].
  rewrite IH. destruct (first_bin v rs) as [j |]; reflexivity.
Qed.

(** X2: The bin of a value is the first one whose right edge is not below
    it: bins are closed on the right. *)
Lemma first_bin_first (v : Q) (r_edges : list Q) (j : nat) :
  first_bin v r_edges = Some j <->
  (exists r, r_edges !! j = Some r /\ Qle_bool v r = true)
  /\ (forall j' r', j' < j -> r_edges !! j' = Some r' -> Qle_bool v r' = false).
Proof.
  revert j. induction r_edges as [| r rs IH]; intros j; simpl.
  - split; [discriminate |]. intros [[r [H _]] _]. discriminate.
  - destruct (Qle_bool v r) eqn:E.
    + split.
      * intros H. injection H as <-. split; [exists r; auto |]. intros j' r' Hlt. lia.
      * intros [[r0 [Hr0 Hle]] Hfirst]. destruct j as [| j]; [reflexivity |].
        specialize (Hfirst 0 r ltac:(lia) eq_refl). congruence.
    + split.
      * intros H. destruct (first_bin v rs) as [j0 |] eqn:E0; [| discriminate].
        injection H as <-. destruct (proj1 (IH j0) eq_refl) as [Hex Hfirst].
        split; [exact Hex |].
        intros [| j'] r' Hlt Hr'; [simpl in Hr'; congruence |].
        apply (Hfirst j' r'); [lia | exact Hr'].
      * intros [[r0 [Hr0 Hle]] Hfirst]. destruct j as [| j].
        { simpl in Hr0. congruence. }
        assert (H : first_bin v rs = Some j).
        { apply IH. split; [exists r0; auto |].
          intros j' r' Hlt Hr'. apply (Hfirst (S j') r'); [lia | exact Hr']. }
        rewrite H. reflexivity.
Qed.

Lemma combine_app_eq {A B} (l1 l2 : list A) (k1 k2 : list B) :
  length l1 = length k1 ->
  combine (l1 ++ l2) (k1 ++ k2) = combine l1 k1 ++ combine l2 k2.
Proof.
  revert k1. induction l1 as [| a l1 IH]; intros [| b k1] H; simpl in *;
    try discriminate; [reflexivity |].
  f_equal. apply IH. lia.
Qed.

Lemma lookup_repeat {A} (a : A) (n j : nat) :
  j < n -> repeat a n !! j = Some a.
Proof.
  revert j. induction n as [| n IH]; intros j Hj; [lia |].
  destruct j as [| j]; simpl; [reflexivity | apply IH; lia].
Qed.

Lemma rebin_snoc (x : list Q) (v : Q) (r_edges : list Q) :
  rebin (x ++ [v]) r_edges = assign r_edges (rebin x r_edges) (length x, v).
Proof.
  unfold rebin, enumerate.
  rewrite length_app, seq_app. simpl seq.
  rewrite combine_app_eq by apply length_seq.
  rewrite fold_left_app. reflexivity.
Qed.

Lemma rebin_lengths (x r_edges : list Q) :
  length (fst (rebin x r_edges)) = length r_edges
  /\ length (snd (rebin x r_edges)) = length r_edges.
Proof.
  induction x as [| v x IH] using rev_ind.
  - unfold rebin. simpl. rewrite !repeat_length. auto.
  - rewrite rebin_snoc. unfold assign. simpl snd.
    destruct (first_bin v r_edges); [| exact IH].
    simpl. rewrite !length_alter. exact IH.
Qed.

Lemma members_snoc (x : list Q) (v : Q) (r_edges : list Q) (j : nat) :
  members (x ++ [v]) r_edges j
  = members x r_edges j
    ++ (if bool_decide (first_bin v r_edges = Some j) then [length x] else []).
Proof.
  unfold members. rewrite length_app, seq_app, List.filter_app. simpl seq. f_equal.
  - apply List.filter_ext_in. intros i Hi. apply in_seq in Hi.
    rewrite lookup_app_l by lia. reflexivity.
  - cbn [List.filter]. rewrite list_lookup_middle by reflexivity.
    destruct (bool_decide (first_bin v r_edges = Some j)); reflexivity.
Qed.

(** X3: after the loop, bin [j] lists the positions of the values whose
    first right edge at or above them is [r_edges[j]], in increasing order,
    and [hist[j]] is the number of these positions; both arrays keep one
    entry per edge. *)
Theorem rebin_members (x r_edges : list Q) :
  length (fst (rebin x r_edges)) = length r_edges
  /\ length (snd (rebin x r_edges)) = length r_edges
  /\ forall j, j < length r_edges ->
       snd (rebin x r_edges) !! j = Some (members x r_edges j)
       /\ fst (rebin x r_edges) !! j = Some (length (members x r_edges j)).
Proof.
  split; [apply rebin_lengths |]. split; [apply rebin_lengths |].
  induction x as [| v x IH] using rev_ind; intros j Hj.
  - unfold rebin, members. simpl. split; apply lookup_repeat; exact Hj.
  - destruct (IH j Hj) as [Hi Hh].
    rewrite rebin_snoc, members_snoc. unfold assign. simpl snd. simpl fst.
    destruct (first_bin v r_edges) as [j0 |] eqn:E.
    + simpl. destruct (decide (j0 = j)) as [-> | Hne].
      * rewrite !list_lookup_alter_eq, Hi, Hh.
        rewrite bool_decide_eq_true_2 by reflexivity.
        rewrite length_app. simpl. split; [reflexivity | f_equal; lia].
      * rewrite !list_lookup_alter_ne by exact Hne.
        rewrite bool_decide_eq_false_2 by congruence.
        rewrite app_nil_r. auto.
    + rewrite bool_decide_eq_false_2 by congruence.
      rewrite app_nil_r. auto.
Qed.

Lemma sum_list_alter_S (l : list nat) (j : nat) :
  j < length l -> sum_list (alter S j l) = S (sum_list l).
Proof.
  revert j. induction l as [| n l IH]; intros j Hj; simpl in Hj; [lia |].
  destruct j as [| j]; [reflexivity |].
  change (alter S (S j) (n :: l)) with (n :: alter S j l).
  change (n + sum_list (alter S j l) = S (n + sum_list l)).
  rewrite IH by lia. lia.
Qed.

(** X4: the counts add up to the number of values that are at or below
    some right edge; a value above every right edge is counted nowhere. *)
Theorem rebin_total (x r_edges : list Q) :
  sum_list (fst (rebin x r_edges)) = length (List.filter (covered r_edges) x).
Proof.
  induction x as [| v x IH] using rev_ind.
  - unfold rebin. simpl.
    induction (length r_edges) as [| n IHn]; simpl; [reflexivity | exact IHn].
  - rewrite rebin_snoc, List.filter_app, length_app. unfold assign. simpl snd.
    cbn [List.filter]. rewrite first_bin_covered.
    destruct (first_bin v r_edges) as [j0 |] eqn:E.
    + rewrite bool_decide_eq_true_2 by eauto. simpl.
      rewrite sum_list_alter_S, IH; [lia |].
      rewrite (proj1 (rebin_lengths x r_edges)). exact (first_bin_lt _ _ _ E).
    + rewrite bool_decide_eq_false_2 by (intros [j H]; discriminate).
      simpl. rewrite IH. lia.
Qed.

End RebinFacts.

(** ** _create_velocity_figure *)

Lemma row_glyphs_scatter (marker path : string) (ds : list (string * entry)) :
  List.filter (fun g => match g with GScatter _ _ => true | _ => false end)
              (row_glyphs marker path ds)
  = [GScatter marker path].
Proof.
  unfold row_glyphs.
  destruct (frame_get_row "x_test" ds), (frame_get_row "x_mean" ds) as [m |],
           (frame_get_row "x_cov" ds) as [c |], (frame_get_row "x_grad" ds);
    try destruct (all_not_none c); reflexivity.
Qed.

Lemma combine_firstn_rows {A B} (l : list A) (k : list B) :
  combine l (firstn (length l) k) = combine l k.
Proof.
  revert k. induction l as [| a l IH]; intros [| b k]; simpl; try reflexivity.
  rewrite IH. reflexivity.
Qed.

(** X5: The rows of the data frame are paired with the markers by [zip]: one
    scatter per pair, in order; with fewer markers than paths the paths at
    the end are not drawn at all, and the figure is the one of the first
    [len(markers)] rows. *)
Theorem velocity_figure_paths_drawn
    (markers : list string) (rows : list (string * list (string * entry))) :
  List.filter (fun g => match g with GScatter _ _ => true | _ => false end)
              (_create_velocity_figure markers rows)
  = map (fun mr => GScatter (fst mr) (fst (snd mr))) (combine markers rows)
  /\ length (List.filter (fun g => match g with GScatter _ _ => true | _ => false end)
                         (_create_velocity_figure markers rows))
     = Nat.min (length markers) (length rows)
  /\ _create_velocity_figure markers rows
     = _create_velocity_figure markers (firstn (length markers) rows).
Proof.
  assert (H : List.filter (fun g => match g with GScatter _ _ => true | _ => false end)
                (_create_velocity_figure markers rows)
              = map (fun mr => GScatter (fst mr) (fst (snd mr))) (combine markers rows)).
  { unfold _create_velocity_figure.
    induction (combine markers rows) as [| [marker [path ds]] l IH]; [reflexivity |].
    cbn [flat_map map]. rewrite List.filter_app, row_glyphs_scatter, IH. reflexivity. }
  split; [exact H |]. split.
  - rewrite H, length_map. apply length_combine.
  - unfold _create_velocity_figure. rewrite combine_firstn_rows. reflexivity.
Qed.

Lemma frame_get_row_app (k : string) (base l : list (string * entry)) :
  frame_get_row k base = None -> frame_get_row k (base ++ l) = frame_get_row k l.
Proof.
  induction base as [| [k0 e] base IH]; intros H; [reflexivity |].
  simpl in *. destruct (String.eqb k0 k); [discriminate | exact (IH H)].
Qed.

Lemma forallb_repeat_none (n : nat) :
  forallb (fun v => match v with VNone => false | _ => true end) (repeat VNone n)
  = Nat.eqb n 0.
Proof. destruct n; reflexivity. Qed.

(** X6: What is drawn for a path whose row holds the result of
    [smooth_expression]: the points and the mean curve always, the band
    around the curve for mode ['gp'] and never for mode ['krr'], whose
    covariance is a list of [None], one per test point. *)
Theorem smoothed_row_glyphs
    (parse : string -> result node) (x y : list cell) (n_points : nat) (mode : string)
    (kernel_expr : option string) (default verbose : bool)
    (opt_params : gmap string val) (st st' : kstore) (out : list event)
    (x_test mean : ndarray) (cov : covariance)
    (marker path : string) (base : list (string * entry)) :
  smooth_expression parse x y n_points mode kernel_expr default verbose opt_params st
  = (out, Ok (x_test, mean, cov), st') ->
  0 < n_points ->
  (forall k, In k ["x_test"; "x_mean"; "x_cov"; "x_grad"] -> frame_get_row k base = None) ->
  row_glyphs marker path
             (base ++ [("x_test", Array x_test); ("x_mean", Array mean);
                       ("x_cov", Cov cov)])
  = [GScatter marker path; GLine "x_mean" path]
    ++ (if String.eqb mode "krr" then [] else [GPatch path]).
Proof.
  intros Hs Hn Hbase. unfold row_glyphs.
  rewrite !frame_get_row_app by (apply Hbase; simpl; tauto). simpl frame_get_row.
  unfold smooth_expression in Hs.
  destruct (String.eqb mode "krr").
  - destruct (match dict_get opt_params "gamma" VNone with
              | VNone => _ | _ => _ end) as [[g o] | e]; [| discriminate].
    destruct (takes _ _); [| discriminate].
    injection Hs as _ _ _ <- _.
    simpl all_not_none. rewrite forallb_repeat_none.
    destruct n_points; [lia | reflexivity].
  - destruct (String.eqb mode "gp"); [| discriminate].
    destruct (eval_kernel parse kernel_expr default st) as [[kernel | e] st1];
      [| discriminate].
    destruct (takes _ _); [| discriminate].
    injection Hs as _ _ _ <- _. reflexivity.
Qed.

Lemma smoothed_row_glyphs_witness :
  exists m,
    row_glyphs "circle" "a"
               [("expr", Cells [CNum 1]); ("x_test", Array (Linspace 2));
                ("x_mean", Array (KrrPredict m 2));
                ("x_cov", Cov (CovList [VNone; VNone]))]
    = [GScatter "circle" "a"; GLine "x_mean" "a"].
Proof.
  eexists.
  eapply (smoothed_row_glyphs Demo.parse_name [CNum 0] [CNum 1] 2 "krr" None false false
            ∅ Demo.empty_params Demo.empty_params _ (Linspace 2) (KrrPredict _ 2)
            (CovList [VNone; VNone]) "circle" "a" [("expr", Cells [CNum 1])]).
  - reflexivity.
  - lia.
  - intros k [<- | [<- | [<- | [<- | []]]]]; reflexivity.
Defined.

(** ** plot_velocity: arguments without effect, and the empty gene list *)

Lemma bind_ext2 {A B} (m1 m2 : M A) (k1 k2 : A -> M B) (w : world) :
  m1 w = m2 w -> (forall a w', k1 a w' = k2 a w') -> bind m1 k1 w = bind m2 k2 w.
Proof.
  intros Hm Hk. unfold bind. rewrite Hm.
  destruct (m2 w) as [[a | e] w']; [apply Hk | reflexivity].
Qed.

Lemma for_each_ext {A B} (f g : A -> M B) (l : list A) (w : world) :
  (forall x w', f x w' = g x w') -> for_each f l w = for_each g l w.
Proof.
  intros H. revert w. induction l as [| x l IH]; intros w; [reflexivity |].
  simpl. apply bind_ext2; [apply H |]. intros y w'.
  apply bind_ext2; [apply IH | reflexivity].
Qed.

Lemma fold_for_ext {A S} (f g : S -> A -> M S) (l : list A) (s : S) (w : world) :
  (forall s x w', f s x w' = g s x w') -> fold_for f l s w = fold_for g l s w.
Proof.
  intros H. revert s w. induction l as [| x l IH]; intros s w; [reflexivity |].
  simpl. apply bind_ext2; [apply H |]. intros s' w'. apply IH.
Qed.

(** Mode ['krr'] reads [kernel_default_params] only: whatever
    [kernel_params] holds, the call gives the same events and result and
    hands the dictionaries back untouched. *)
Lemma smooth_expression_krr
    (parse : string -> result node) (x y : list cell) (n_points : nat)
    (kernel_expr : option string) (default verbose : bool)
    (opt_params : gmap string val) (kp kp' : gmap string (gmap string val))
    (kdp : gmap string val) :
  smooth_expression parse x y n_points "krr" kernel_expr default verbose opt_params
                    (mk_kstore kp kdp)
  = (fst (smooth_expression parse x y n_points "krr" kernel_expr default verbose
                            opt_params (mk_kstore kp' kdp)),
     mk_kstore kp kdp).
Proof.
  unfold smooth_expression. simpl String.eqb. cbv iota.
  cbn [kernel_default_params].
  destruct (match dict_get opt_params "gamma" VNone with
            | VNone => _ | _ => _ end) as [[g o] | e]; [| reflexivity].
  destruct (takes _ _); reflexivity.
Qed.

(** X7: In mode ['krr'] the argument [length_scale] of [plot_velocity] has no
    effect: it is passed on inside [kernel_params], which that mode never
    reads. *)
Theorem plot_velocity_krr_ignores_length_scale
    (parse : string -> result node) (adata : nat) (paths : list (list string))
    (genes : option (list string)) (n_velocity_genes : nat) (exp_key : string)
    (smooth : bool) (length_scale length_scale' : val) (color_key path_key : string)
    (return_values : bool) (velo_key_ss velo_key_dyn : string) (kwargs : smooth_kwargs)
    (w : world) :
  plot_velocity parse adata paths genes n_velocity_genes exp_key "krr" smooth
                length_scale color_key path_key return_values velo_key_ss velo_key_dyn
                kwargs w
  = plot_velocity parse adata paths genes n_velocity_genes exp_key "krr" smooth
                  length_scale' color_key path_key return_values velo_key_ss
                  velo_key_dyn kwargs w.
Proof.
  unfold plot_velocity.
  apply bind_ext; intros [] w1.
  apply bind_ext; intros a w2.
  apply bind_ext; intros [] w3.
  apply bind_ext; intros [] w4.
  apply bind_ext; intros gs w5.
  apply bind_ext; intros col w6.
  apply bind_ext2; [| reflexivity].
  apply for_each_ext; intros gene w7. unfold velocity_gene.
  apply bind_ext2; [| reflexivity].
  apply fold_for_ext; intros data path w8. unfold velocity_path.
  apply bind_ext; intros a' w9.
  apply bind_ext; intros pcol w10.
  apply bind_ext; intros l w11.
  apply bind_ext; intros ad w12.
  apply bind_ext; intros gene_exp w13.
  apply bind_ext; intros dpt w14.
  apply bind_ext; intros colors w15.
  destruct smooth; [| reflexivity].
  apply bind_ext; intros [] w16.
  rewrite (smooth_expression_krr parse _ _ _ _ _ _ _
             {[ "k" := {[ "length_scale" := length_scale ]} ]}
             {[ "k" := {[ "length_scale" := length_scale' ]} ]}).
  destruct (smooth_expression parse _ _ _ "krr" _ _ _ _ _) as [[out r] st'].
  reflexivity.
Qed.





(** ** interactive_histograms: which key is reported, and the calls that succeed *)

Lemma check_keys_find (a : AnnData) (keys : list string) :
  check_keys a keys
  = match List.find (fun key => negb (key_known a key)) keys with
    | Some key =>
        Raise (ValueError ("The key `" ++ key ++
                 "` does not exist in `adata.obs`, `adata.var` or `adata.var_names`."))
    | None => Ok tt
    end.
Proof.
  induction keys as [| key keys IH]; [reflexivity |].
  simpl. destruct (key_known a key); simpl; [exact IH | reflexivity].
Qed.

(** X9: With an admissible range of bins, [interactive_histograms] raises for
    the first key of [keys], in the order given, that is in none of
    [adata.obs], [adata.var], [adata.var_names]; its message names that
    key, and nothing was computed or drawn. *)
Theorem interactive_histograms_first_unknown_key
    (adata : nat) (a : AnnData) (w : world) (keys : list string) (bins : val)
    (min_bins max_bins : Z) (groups : option (list string))
    (palette : option (list string)) (display_all : bool) (key : string) :
  heap w !! adata = Some a ->
  (1 <= min_bins /\ min_bins <= max_bins)%Z ->
  List.find (fun key => negb (key_known a key)) keys = Some key ->
  interactive_histograms adata keys bins min_bins max_bins groups palette display_all w
  = (Raise (ValueError ("The key `" ++ key ++
              "` does not exist in `adata.obs`, `adata.var` or `adata.var_names`.")),
     w).
Proof.
  intros Hl Hbins Hfind.
  unfold interactive_histograms, bind, lift, read.
  rewrite (proj2 (check_bins_ok min_bins max_bins) Hbins), Hl, check_keys_find, Hfind.
  reflexivity.
Qed.

Lemma interactive_histograms_first_unknown_key_witness :
  interactive_histograms 0 ["louvain"; "n_genes"; "n_counts"] (VStr "auto") 1 1000 None
                         None true Demo.world0
  = (Raise (ValueError
       "The key `n_genes` does not exist in `adata.obs`, `adata.var` or `adata.var_names`."),
     Demo.world0).
Proof.
  apply (interactive_histograms_first_unknown_key 0 Demo.adata Demo.world0
           ["louvain"; "n_genes"; "n_counts"] (VStr "auto") 1 1000 None None true
           "n_genes" eq_refl ltac:(lia) eq_refl).
Defined.

Lemma index_of_mem (k : string) (l : list string) :
  PyStr.mem k l = true -> exists j, index_of k l = Some j.
Proof.
  induction l as [| x l IH]; simpl; [discriminate |].
  destruct (String.eqb k x); [eauto |].
  simpl. intros H. destruct (IH H) as [j ->]. simpl. eauto.
Qed.

(** A key that passed the check of lines 153-157 has values to bin. *)
Lemma histogram_input_known (a : AnnData) (key : string) :
  key_known a key = true -> exists orig, histogram_input a key = Ok orig.
Proof.
  unfold key_known, histogram_input, has_key. intros H.
  destruct (obs a !! key) as [c |]; [eauto |].
  destruct (var a !! key) as [c |]; [eauto |].
  rewrite !bool_decide_eq_false_2 in H by (intros [c Hc]; discriminate).
  simpl in H. destruct (index_of_mem _ _ H) as [j ->]. eauto.
Qed.

Lemma emit_run (e : event) (w : world) :
  emit e w = (Ok tt, mk_world (heap w) (trace w ++ [e])).
Proof. reflexivity. Qed.

Lemma run_read {B} (l : nat) (a : AnnData) (k : AnnData -> M B) (w : world) :
  heap w !! l = Some a -> bind (read l) k w = k a w.
Proof. intros H. unfold bind, read. rewrite H. reflexivity. Qed.


Lemma run_lift_raise {A B} (e : exn) (k : A -> M B) (w : world) :
  bind (lift (Raise e)) k w = (Raise e, w).
Proof. reflexivity. Qed.

Lemma run_raise_if {B} (c : bool) (e : exn) (k : unit -> M B) (w : world) :
  bind (raise_if c e) k w = if c then (Raise e, w) else k tt w.
Proof. destruct c; reflexivity. Qed.

Lemma run_emit {B} (e : event) (k : unit -> M B) (w : world) :
  bind (emit e) k w = k tt (mk_world (heap w) (trace w ++ [e])).
Proof. reflexivity. Qed.

(** One round of the loop over [keys] without grouping, for data with
    observations and a slider with two different bounds. *)
Lemma histogram_round (a : AnnData) (bins : val) (min_bins max_bins : Z)
    (palette : list string) (key : string) (w : world) :
  key_known a key = true -> palette <> [] ->
  (min_bins < max_bins)%Z -> 0 < n_obs a ->
  exists cs,
    (emit (EFigure key) ;;;
     raise_if (min_bins =? max_bins)%Z
              (ValueError "Slider 'start' and 'end' cannot be equal.") ;;;
     plots <- for_each (fun '(j, (ad, group_vs)) =>
         orig <- lift (histogram_input ad key) ;;
         emit (ECompute (NpHistogram orig bins)) ;;;
         lift (palette_at palette j))
       (enumerate (List.filter (fun ad_g => Nat.ltb 0 (n_obs (fst ad_g)))
                               (combine [a] [[CStr "all"]]))) ;;
     raise_if (Nat.eqb (length plots) 0)
              (ValueError "js_on_change takes an event name and one or more callbacks, got only one parameter") ;;;
     ret plots)%py w
    = (Ok cs, mk_world (heap w) (trace w ++ histogram_events a bins key)).
Proof.
  intros Hk Hp Hbins Hobs. destruct (histogram_input_known a key Hk) as [orig Ho].
  destruct palette as [| c palette]; [contradiction |].
  unfold histogram_events. cbn [combine List.filter fst].
  apply Nat.ltb_lt in Hobs. rewrite Hobs, Ho.
  rewrite run_emit, run_raise_if.
  replace (min_bins =? max_bins)%Z with false by (symmetry; apply Z.eqb_neq; lia).
  eexists. unfold enumerate, bind, lift, emit, ret. simpl.
  rewrite Ho. simpl. unfold bind, ret. simpl. rewrite <- app_assoc. reflexivity.
Qed.

(** X10: [interactive_histograms] without grouping, with an admissible range
    of bins, known keys and a palette that is not empty.  It raises a
    [ValueError] with no key at all (the layout asks numpy for zero
    sections), with [min_bins = max_bins] (the slider refuses equal bounds,
    after the first figure was made) and for data without observations (no
    callback for the slider).  With at least one key, [min_bins < max_bins]
    and at least one observation, for values that are numbers and [bins] a
    positive integer or the name of a rule, it returns: one figure and one
    histogram per key, in the order of the keys, then one layout that is
    shown; the store is left alone. *)
Theorem interactive_histograms_ungrouped
    (adata : nat) (a : AnnData) (w : world) (keys : list string) (bins : val)
    (min_bins max_bins : Z) (palette : option (list string)) (display_all : bool) :
  heap w !! adata = Some a ->
  (1 <= min_bins /\ min_bins <= max_bins)%Z ->
  forallb (key_known a) keys = true ->
  palette <> Some [] ->
  let run :=
    interactive_histograms adata keys bins min_bins max_bins None palette display_all w in
  (keys = [] -> exists msg, run = (Raise (ValueError msg), w))
  /\ (forall key keys',
        keys = key :: keys' -> min_bins = max_bins \/ n_obs a = 0 ->
        exists msg,
          run = (Raise (ValueError msg), mk_world (heap w) (trace w ++ [EFigure key])))
  /\ (keys <> [] -> (min_bins < max_bins)%Z -> 0 < n_obs a ->
      plain_bins bins = true ->
      (forall key orig,
          In key keys -> histogram_input a key = Ok orig ->
          forallb is_number orig = true) ->
      run = (Ok tt,
             mk_world (heap w)
               (trace w ++ flat_map (histogram_events a bins) keys
                ++ [EShow (length keys)]))).
Proof.
  intros Hl Hbins Hkeys Hpal run.
  set (pal := match palette with None => Set1_9 ++ Set2_8 ++ Set3_12 | Some p => p end).
  assert (Hpal' : pal <> []) by (unfold pal; destruct palette; [congruence | discriminate]).
  assert (Hfind : List.find (fun key => negb (key_known a key)) keys = None).
  { clear -Hkeys. induction keys as [| k keys IH]; [reflexivity |].
    simpl in *. apply andb_prop in Hkeys as [Hk Hks]. rewrite Hk. simpl. exact (IH Hks). }
  assert (Hstart : forall k : list (list string) -> M unit,
    (lift (check_bins min_bins max_bins) ;;;
     a <- read adata ;;
     lift (check_keys a keys) ;;;
     ad_gs <- lift (_create_adata_groups a None display_all) ;;
     cols <- for_each (fun key =>
       emit (EFigure key) ;;;
       raise_if (min_bins =? max_bins)%Z
                (ValueError "Slider 'start' and 'end' cannot be equal.") ;;;
       plots <- for_each (fun '(j, (ad, group_vs)) =>
           orig <- lift (histogram_input ad key) ;;
           emit (ECompute (NpHistogram orig bins)) ;;;
           lift (palette_at pal j))
         (enumerate (List.filter (fun ad_g => Nat.ltb 0 (n_obs (fst ad_g)))
                                 (combine (fst ad_gs) (snd ad_gs)))) ;;
       raise_if (Nat.eqb (length plots) 0)
                (ValueError "js_on_change takes an event name and one or more callbacks, got only one parameter") ;;;
       ret plots)
       keys ;;
     k cols)%py w
    = (cols <- for_each (fun key =>
       emit (EFigure key) ;;;
       raise_if (min_bins =? max_bins)%Z
                (ValueError "Slider 'start' and 'end' cannot be equal.") ;;;
       plots <- for_each (fun '(j, (ad, group_vs)) =>
           orig <- lift (histogram_input ad key) ;;
           emit (ECompute (NpHistogram orig bins)) ;;;
           lift (palette_at pal j))
         (enumerate (List.filter (fun ad_g => Nat.ltb 0 (n_obs (fst ad_g)))
                                 (combine [a] [[CStr "all"]]))) ;;
       raise_if (Nat.eqb (length plots) 0)
                (ValueError "js_on_change takes an event name and one or more callbacks, got only one parameter") ;;;
       ret plots)
       keys ;;
     k cols)%py w).
  { intros k. unfold bind at 1. unfold lift at 1.
    rewrite (proj2 (check_bins_ok min_bins max_bins) Hbins).
    rewrite (run_read _ a) by exact Hl.
    unfold bind at 1. unfold lift at 1. rewrite check_keys_find, Hfind.
    reflexivity. }
  assert (Hrun : run
    = (cols <- for_each (fun key =>
       emit (EFigure key) ;;;
       raise_if (min_bins =? max_bins)%Z
                (ValueError "Slider 'start' and 'end' cannot be equal.") ;;;
       plots <- for_each (fun '(j, (ad, group_vs)) =>
           orig <- lift (histogram_input ad key) ;;
           emit (ECompute (NpHistogram orig bins)) ;;;
           lift (palette_at pal j))
         (enumerate (List.filter (fun ad_g => Nat.ltb 0 (n_obs (fst ad_g)))
                                 (combine [a] [[CStr "all"]]))) ;;
       raise_if (Nat.eqb (length plots) 0)
                (ValueError "js_on_change takes an event name and one or more callbacks, got only one parameter") ;;;
       ret plots)
       keys ;;
     raise_if (Nat.eqb (length cols) 0)
              (ValueError "number sections must be larger than 0.") ;;;
     emit (EShow (length cols)))%py w).
  { unfold run, interactive_histograms. fold pal. apply Hstart. }
  clearbody run. subst run. split; [| split].
  - intros ->. eexists. destruct w. reflexivity.
  - intros key keys' -> [Heq | Hobs].
    + eexists. cbn [for_each]. unfold bind at 1. unfold bind at 1.
      rewrite run_emit, run_raise_if.
      replace (min_bins =? max_bins)%Z with true by (symmetry; apply Z.eqb_eq; exact Heq).
      reflexivity.
    + cbn [for_each]. unfold bind at 1. unfold bind at 1.
      rewrite run_emit, run_raise_if.
      destruct (min_bins =? max_bins)%Z; [eexists; reflexivity |].
      cbn [combine List.filter fst]. rewrite Hobs. eexists. reflexivity.
  - intros Hne Hlt Hobs _ _.
    assert (Hloop : forall w0,
      exists cols,
        for_each (fun key =>
          emit (EFigure key) ;;;
          raise_if (min_bins =? max_bins)%Z
                   (ValueError "Slider 'start' and 'end' cannot be equal.") ;;;
          plots <- for_each (fun '(j, (ad, group_vs)) =>
              orig <- lift (histogram_input ad key) ;;
              emit (ECompute (NpHistogram orig bins)) ;;;
              lift (palette_at pal j))
            (enumerate (List.filter (fun ad_g => Nat.ltb 0 (n_obs (fst ad_g)))
                                    (combine [a] [[CStr "all"]]))) ;;
          raise_if (Nat.eqb (length plots) 0)
                   (ValueError "js_on_change takes an event name and one or more callbacks, got only one parameter") ;;;
          ret plots)%py
          keys w0
        = (Ok cols, mk_world (heap w0)
                      (trace w0 ++ flat_map (histogram_events a bins) keys))
        /\ length cols = length keys).
    { clear -Hkeys Hpal' Hlt Hobs. induction keys as [| k keys IH]; intros w0.
      - exists []. simpl. unfold ret. rewrite app_nil_r. destruct w0. auto.
      - simpl in Hkeys. apply andb_prop in Hkeys as [Hk Hks].
        destruct (histogram_round a bins min_bins max_bins pal k w0 Hk Hpal' Hlt Hobs)
          as [cs Hcs].
        destruct (IH Hks (mk_world (heap w0) (trace w0 ++ histogram_events a bins k)))
          as (cols & Hcols & Hlen).
        exists (cs :: cols). split; [| simpl; lia].
        cbn [for_each]. unfold bind at 1. rewrite Hcs.
        unfold bind at 1. rewrite Hcols. unfold ret. cbn [flat_map heap trace].
        rewrite <- app_assoc. reflexivity. }
    destruct (Hloop w) as (cols & Hcols & Hlen).
    unfold bind at 1. rewrite Hcols. rewrite run_raise_if, Hlen.
    destruct keys as [| k keys]; [congruence |].
    cbn [length Nat.eqb]. unfold emit. cbn [heap trace].
    rewrite <- app_assoc. reflexivity.
Qed.

Lemma interactive_histograms_ungrouped_witness :
  interactive_histograms 0 ["dpt_pseudotime"; "g2"] (VStr "auto") 1 1000 None None true
                         Demo.world0
  = (Ok tt,
     mk_world [Demo.adata]
       [EFigure "dpt_pseudotime";
        ECompute (NpHistogram [CNum 0; CNum (1 # 2); CNum 1] (VStr "auto"));
        EFigure "g2";
        ECompute (NpHistogram [CNum 0; CNum 3; CNum 5] (VStr "auto"));
        EShow 2]).
Proof.
  apply (proj2 (proj2 (interactive_histograms_ungrouped 0 Demo.adata Demo.world0
           ["dpt_pseudotime"; "g2"] (VStr "auto") 1 1000 None true
           eq_refl ltac:(lia) eq_refl ltac:(discriminate)))
           ltac:(discriminate) ltac:(lia) ltac:(vm_compute; lia) eq_refl).
  intros key orig [<- | [<- | []]] H; vm_compute in H; injection H as <-; reflexivity.
Defined.

(** ** Keys given as a comma-separated string *)

Module SplitFacts.
Import PyStr.

Lemma mem_In (k : string) (l : list string) : mem k l = true <-> In k l.
Proof.
  unfold mem. rewrite existsb_exists. split.
  - intros [x [Hx He]]. apply String.eqb_eq in He. subst. exact Hx.
  - intros H. exists k. split; [exact H | apply String.eqb_refl].
Qed.

Lemma fromkeys_acc_spec (seen l : list string) :
  NoDup (fromkeys_acc seen l)
  /\ forall k, In k (fromkeys_acc seen l) <-> In k l /\ ~ In k seen.
Proof.
  revert seen. induction l as [| x l IH]; intros seen; simpl.
  - split; [constructor |]. intros k. tauto.
  - destruct (mem x seen) eqn:E.
    + apply mem_In in E. destruct (IH seen) as [Hnd Hin]. split; [exact Hnd |].
      intros k. rewrite Hin. split; [tauto |].
      intros [[-> | Hk] Hs]; [contradiction | auto].
    + assert (Hx : ~ In x seen) by (rewrite <- mem_In; congruence).
      destruct (IH (x :: seen)) as [Hnd Hin]. split.
      * constructor; [| exact Hnd]. rewrite list_elem_of_In, Hin. simpl. tauto.
      * intros k. simpl. rewrite Hin. simpl. split.
        -- intros [-> | [Hk Hs]]; [auto | tauto].
        -- intros [[-> | Hk] Hs]; [auto |].
           destruct (String.eqb_spec x k) as [-> | Hne]; [auto | right; tauto].
Qed.

Lemma rstrip_head (c : ascii) (s : string) :
  rstrip (String c s) = EmptyString \/ exists r, rstrip (String c s) = String c r.
Proof.
  simpl. destruct (rstrip s); [destruct (isspace c) |]; eauto.
Qed.

Lemma rstrip_idempotent (s : string) : rstrip (rstrip s) = rstrip s.
Proof.
  induction s as [| c s IH]; [reflexivity |].
  simpl. destruct (rstrip s) as [| c' r] eqn:E.
  - destruct (isspace c) eqn:Ec; [reflexivity |]. simpl. rewrite Ec. reflexivity.
  - change (rstrip (String c (String c' r))) with
      (match rstrip (String c' r) with
       | EmptyString => if isspace c then EmptyString else String c EmptyString
       | r0 => String c r0
       end).
    rewrite IH. reflexivity.
Qed.

Lemma lstrip_head (s : string) :
  lstrip s = EmptyString \/ exists c t, lstrip s = String c t /\ isspace c = false.
Proof.
  induction s as [| c s IH]; [auto |].
  simpl. destruct (isspace c) eqn:E; [exact IH | right; eauto].
Qed.

Lemma rstrip_last (s : string) : no_space (last_char (rstrip s)) = true.
Proof.
  induction s as [| c s IH]; [reflexivity |].
  simpl rstrip. destruct (rstrip s) as [| c' r].
  - destruct (isspace c) eqn:Ec; [reflexivity |]. simpl. rewrite Ec. reflexivity.
  - exact IH.
Qed.

Lemma strip_idempotent (s : string) : strip (strip s) = strip s.
Proof.
  unfold strip.
  destruct (lstrip_head s) as [-> | (c & t & -> & Hc)]; [reflexivity |].
  pose proof (rstrip_idempotent (String c t)) as Hi.
  destruct (rstrip_head c t) as [H | [r H]]; rewrite H in *.
  - reflexivity.
  - cbn [lstrip]. rewrite Hc. exact Hi.
Qed.

Lemma contains_append (c : ascii) (s t : string) :
  contains c (s ++ t) = contains c s || contains c t.
Proof.
  induction s as [| c' s IH]; [reflexivity |].
  simpl. rewrite IH. apply orb_assoc.
Qed.

Lemma split_from_no_sep (sep : ascii) (cur s : string) :
  contains sep cur = false ->
  Forall (fun piece => contains sep piece = false) (split_from sep cur s).
Proof.
  revert cur. induction s as [| c s IH]; intros cur Hcur; simpl.
  - constructor; [exact Hcur | constructor].
  - destruct (Ascii.eqb c sep) eqn:E.
    + constructor; [exact Hcur | apply IH; reflexivity].
    + apply IH. rewrite contains_append, Hcur. simpl. rewrite E. reflexivity.
Qed.

Lemma contains_lstrip (c : ascii) (s : string) :
  contains c s = false -> contains c (lstrip s) = false.
Proof.
  induction s as [| c' s IH]; [auto |].
  simpl. intros H. apply orb_false_elim in H as [H1 H2].
  destruct (isspace c'); [exact (IH H2) |]. simpl. rewrite H1, H2. reflexivity.
Qed.

Lemma contains_rstrip (c : ascii) (s : string) :
  contains c s = false -> contains c (rstrip s) = false.
Proof.
  induction s as [| c' s IH]; [auto |].
  simpl. intros H. apply orb_false_elim in H as [H1 H2]. specialize (IH H2).
  destruct (rstrip s) as [| c0 r].
  - destruct (isspace c'); [reflexivity |]. simpl. rewrite H1. reflexivity.
  - simpl in *. rewrite H1, IH. reflexivity.
Qed.

(** X11: The keys read from a comma-separated string: no key twice, exactly
    the stripped pieces of the string, and no key with a comma in it or with
    a white-space character (of those with a code point below 256) as its
    first or last character. *)
Theorem split_keys_invariants (s : string) :
  NoDup (split_keys s)
  /\ (forall k, In k (split_keys s) <-> In k (map strip (split "," s)))
  /\ (forall k,
        In k (split_keys s) ->
        strip k = k /\ contains "," k = false
        /\ no_space (first_char k) = true /\ no_space (last_char k) = true).
Proof.
  assert (Hends : forall k,
             strip k = k ->
             no_space (first_char k) = true /\ no_space (last_char k) = true).
  { intros k Hk. rewrite <- Hk. unfold strip. split.
    - destruct (lstrip_head k) as [-> | (c & t & -> & Hc)]; [reflexivity |].
      destruct (rstrip_head c t) as [-> | [r ->]]; [reflexivity |].
      simpl. rewrite Hc. reflexivity.
    - apply rstrip_last. }
  assert (Hbase :
    NoDup (split_keys s)
    /\ (forall k, In k (split_keys s) <-> In k (map strip (split "," s)))
    /\ (forall k, In k (split_keys s) -> strip k = k /\ contains "," k = false)).
  2: { destruct Hbase as (H1 & H2 & H3). split; [exact H1 |]. split; [exact H2 |].
       intros k Hin. destruct (H3 k Hin) as [Hs Hc].
       destruct (Hends k Hs) as [Hf Hl]. auto. }
  unfold split_keys, fromkeys.
  destruct (fromkeys_acc_spec [] (map strip (split "," s))) as [Hnd Hin].
  split; [exact Hnd |].
  assert (Hiff : forall k, In k (fromkeys_acc [] (map strip (split "," s)))
                           <-> In k (map strip (split "," s))).
  { intros k. rewrite Hin. simpl. tauto. }
  split; [exact Hiff |].
  intros k Hk. apply Hiff, in_map_iff in Hk as [piece [<- Hpiece]].
  split; [apply strip_idempotent |].
  unfold strip. apply contains_rstrip, contains_lstrip.
  pose proof (split_from_no_sep "," EmptyString s eq_refl) as Hall.
  rewrite Forall_forall in Hall. apply Hall, list_elem_of_In. exact Hpiece.
Qed.

Lemma append_empty_r (s : string) : (s ++ EmptyString)%string = s.
Proof.
  induction s as [| c s IH]; [reflexivity |].
  change (String c (s ++ EmptyString)%string = String c s). f_equal. exact IH.
Qed.

Lemma append_snoc (cur : string) (c : ascii) (k : string) :
  ((cur ++ String c EmptyString) ++ k)%string = (cur ++ String c k)%string.
Proof.
  induction cur as [| c' cur IH]; [reflexivity |].
  change (String c' ((cur ++ String c EmptyString) ++ k)%string
          = String c' (cur ++ String c k)%string).
  f_equal. exact IH.
Qed.

Lemma split_from_piece (cur k rest : string) :
  contains "," k = false ->
  split_from "," cur (k ++ String "," rest)
  = (cur ++ k)%string :: split_from "," EmptyString rest.
Proof.
  revert cur. induction k as [| c k IH]; intros cur Hk.
  - change (split_from "," cur (String "," rest)
            = (cur ++ EmptyString)%string :: split_from "," EmptyString rest).
    rewrite append_empty_r. reflexivity.
  - cbn [contains] in Hk. apply orb_false_elim in Hk as [Hc Hk].
    change (split_from "," cur (String c (k ++ String "," rest))
            = (cur ++ String c k)%string :: split_from "," EmptyString rest).
    cbn [split_from]. rewrite Hc, (IH _ Hk), append_snoc. reflexivity.
Qed.

End SplitFacts.

(** X12: A comma after the last key adds the empty string to the keys asked
    for, so that the assertion on [cell_keys] fails, although the key
    before the comma is a column, unless [adata.obs] has a column with the
    empty name. *)
Theorem trailing_comma_fails (a : AnnData) (k : string) :
  contains "," k = false ->
  PyStr.strip k <> EmptyString ->
  has_key (obs a) EmptyString = false ->
  PyStr.split_keys (k ++ ",") = [PyStr.strip k; EmptyString]
  /\ parse_cell_keys a (KeysStr (k ++ ","))
     = Raise (AssertionError "Not all keys are in `adata.obs.keys()`.")
  /\ forall adata key basis components w,
       heap w !! adata = Some a ->
       has_key (obs a) key = true ->
       has_key (obsm a) ("X_" ++ basis) = true ->
       plot_cell_indices adata key basis components (KeysStr (k ++ ",")) w
       = (Raise (AssertionError "Not all keys are in `adata.obs.keys()`."), w).
Proof.
  intros Hk Hne Hempty.
  assert (Hsplit : PyStr.split_keys (k ++ ",") = [PyStr.strip k; EmptyString]).
  { unfold PyStr.split_keys, PyStr.split.
    rewrite (SplitFacts.split_from_piece EmptyString k EmptyString Hk).
    cbn [PyStr.split_from map append]. unfold PyStr.fromkeys. cbn [PyStr.fromkeys_acc PyStr.mem existsb].
    change (PyStr.strip EmptyString) with EmptyString.
    change ((EmptyString ++ k)%string) with k. rewrite orb_false_r.
    destruct (String.eqb_spec EmptyString (PyStr.strip k)) as [E | _];
      [congruence | reflexivity]. }
  assert (Hparse : parse_cell_keys a (KeysStr (k ++ ","))
                   = Raise (AssertionError "Not all keys are in `adata.obs.keys()`.")).
  { unfold parse_cell_keys. rewrite Hsplit. unfold PyStr.list_eqb.
    rewrite bool_decide_eq_false_2 by congruence. cbn [negb forallb].
    rewrite Hempty, andb_false_r. reflexivity. }
  split; [exact Hsplit |]. split; [exact Hparse |].
  intros adata key basis components w Hl Hkey Hbasis.
  unfold plot_cell_indices, bind, read, raise_if, lift.
  rewrite Hl, Hkey, Hbasis, Hparse. reflexivity.
Qed.

Lemma trailing_comma_fails_witness :
  plot_cell_indices 0 "louvain" "umap" [1; 2]%Z (KeysStr "louvain,") Demo.world0
  = (Raise (AssertionError "Not all keys are in `adata.obs.keys()`."), Demo.world0).
Proof.
  apply (proj2 (proj2 (trailing_comma_fails Demo.adata "louvain" eq_refl
                         ltac:(vm_compute; discriminate) eq_refl))
           0 "louvain" "umap" [1; 2]%Z Demo.world0 eq_refl eq_refl eq_refl).
Defined.

(** ** plot_cell_indices: the calls that succeed *)




(** How the steps of a call run. *)
Lemma run_extract {B} (a : AnnData) (basis : string) (comp : list Z)
    (k : unit -> M B) (w : world) :
  bind (extract_embedding a basis comp) k w
  = if has_key (obsm a) ("X_" ++ basis)
    then k tt (mk_world (heap w) (trace w ++ [EExtract basis comp]))
    else (Raise (KeyError ("X_" ++ basis)), w).
Proof.
  unfold extract_embedding, bind, lift, emit, getitem, has_key.
  destruct (obsm a !! _); reflexivity.
Qed.




(** ** hist_thresh: the order of its steps *)









(** ** highlight_de: the column the groups were made from *)

Lemma fails_quietly_extract_bind {B} (a : AnnData) (basis : string) (comp : list Z)
    (k : unit -> M B) (w : world) :
  fails_quietly (k tt) (mk_world (heap w) (trace w ++ [EExtract basis comp])) ->
  fails_quietly (bind (extract_embedding a basis comp) k) w.
Proof.
  intros (e & out & H & Hq). unfold fails_quietly. rewrite run_extract.
  destruct (has_key (obsm a) ("X_" ++ basis)).
  - exists e, (EExtract basis comp :: out). rewrite H. cbn [heap trace].
    rewrite <- app_assoc. split; [reflexivity | exact Hq].
  - exists (KeyError ("X_" ++ basis)), []. rewrite world_eta. auto.
Qed.

(** X16: [highlight_de] always adds the key the groups were made from,
    [adata.uns['rank_genes_groups']['params']['groupby']], to the keys shown
    for a cell: when that key is not a column of [adata.obs] the call
    raises before the classifier is fitted, whatever [cell_keys] is. *)
Theorem highlight_de_needs_groupby_column
    (adata : nat) (a : AnnData) (w : world) (basis : string) (components : list Z)
    (de_keys cell_keys : keys_arg) (n_neighbors : Z) (key : string) :
  heap w !! adata = Some a ->
  groupby_key a = Ok key ->
  has_key (obs a) key = false ->
  fails_quietly (highlight_de adata basis components de_keys cell_keys n_neighbors) w.
Proof.
  intros Hl Hgroup Hkey. unfold highlight_de.
  apply (fails_quietly_read_bind _ a); [exact Hl |].
  apply fails_quietly_raise_if_bind; intros _.
  apply fails_quietly_lift_bind; intros de_keys' _.
  apply fails_quietly_lift_bind; intros cell_keys' _.
  apply fails_quietly_raise_if_bind; intros _.
  apply fails_quietly_lift_bind; intros key' Hkey'.
  assert (key' = key) by congruence. subst key'.
  apply fails_quietly_extract_bind.
  apply (for_each_getitem_missing _ _ key); [| exact Hkey].
  destruct (PyStr.mem key cell_keys') eqn:E.
  - apply SplitFacts.mem_In. exact E.
  - left. reflexivity.
Qed.

Lemma highlight_de_needs_groupby_column_witness :
  fails_quietly (highlight_de 0 "umap" [1; 2]%Z (KeysStr "names, scores") (KeysStr "") 5)
                (mk_world [ranked_adata] []).
Proof.
  apply (highlight_de_needs_groupby_column 0 ranked_adata (mk_world [ranked_adata] [])
           "umap" [1; 2]%Z (KeysStr "names, scores") (KeysStr "") 5 "leiden"
           eq_refl eq_refl eq_refl).
Defined.

(** ** _eval and the dictionaries of the caller *)

Lemma only_type_popped_refl (st : kstore) : only_type_popped st st.
Proof. split; auto. Qed.

Lemma only_type_popped_trans (st1 st2 st3 : kstore) :
  only_type_popped st1 st2 -> only_type_popped st2 st3 -> only_type_popped st1 st3.
Proof.
  intros [H12 D12] [H23 D23]. split.
  - intros id. destruct (H12 id) as [E12 | E12], (H23 id) as [E23 | E23];
      rewrite E23, E12; auto.
    right. destruct (kernel_params st1 !! id); simpl; [| reflexivity].
    rewrite delete_delete_eq. reflexivity.
  - destruct D12 as [E12 | E12], D23 as [E23 | E23]; rewrite E23, E12; auto.
    right. apply delete_delete_eq.
Qed.

Lemma _eval_pops_type_only (kernel_expr : string) (default : bool) (n : node)
    (st : kstore) :
  only_type_popped st (snd (_eval kernel_expr default n st)).
Proof.
  revert st. induction n as [q | id | l IHl op r IHr | op n IHn | kind];
    intros st; simpl; try apply only_type_popped_refl.
  - destruct (negb default && negb (bool_decide (is_Some (kernel_params st !! id))));
      [apply only_type_popped_refl |].
    destruct (kernel_params st !! id) as [params |] eqn:E.
    + assert (H : only_type_popped st
                    (mk_kstore (<[id := delete "type" params]> (kernel_params st))
                               (kernel_default_params st))).
      { split; [| left; reflexivity]. intros id'. simpl.
        destruct (decide (id = id')) as [<- | Hne].
        - right. rewrite lookup_insert_eq, E. reflexivity.
        - left. apply lookup_insert_ne. exact Hne. }
      destruct (kernels _); exact H.
    + assert (H : only_type_popped st
                    (mk_kstore (kernel_params st)
                               (delete "type" (kernel_default_params st)))).
      { split; [intros id'; left; reflexivity | right; reflexivity]. }
      destruct (kernels _); exact H.
  - destruct (operators op); [| apply only_type_popped_refl].
    specialize (IHl st).
    destruct (_eval kernel_expr default l st) as [[vl | e] st1]; [| exact IHl].
    specialize (IHr st1).
    destruct (_eval kernel_expr default r st1) as [[vr | e] st2];
      exact (only_type_popped_trans _ _ _ IHl IHr).
Qed.

Lemma smooth_expression_pops_type_only
    (parse : string -> result node) (x y : list cell) (n_points : nat) (mode : string)
    (kernel_expr : option string) (default verbose : bool)
    (opt_params : gmap string val) (st : kstore) :
  only_type_popped st
    (snd (smooth_expression parse x y n_points mode kernel_expr default verbose
                            opt_params st)).
Proof.
  destruct (String.eqb_spec mode "krr") as [-> | Hk].
  - rewrite smooth_expression_krr_store. apply only_type_popped_refl.
  - unfold smooth_expression. rewrite (proj2 (String.eqb_neq _ _) Hk).
    destruct (String.eqb mode "gp"); [| apply only_type_popped_refl].
    unfold eval_kernel.
    destruct (sole_key kernel_expr st) as [expr | e]; [| apply only_type_popped_refl].
    destruct (parse expr) as [body | e]; [| apply only_type_popped_refl].
    pose proof (_eval_pops_type_only expr default body st) as H.
    destruct (_eval expr default body st) as [[kernel | e] st'];
      [destruct (takes _ _) |]; exact H.
Qed.

(** X17: Whatever its arguments and whether it returns or raises,
    [smooth_expression] leaves in the dictionaries of the caller every key
    of [kernel_params] and every parameter other than ['type']: the only
    thing it ever removes is an entry ['type']. *)
Theorem smooth_expression_keeps_other_entries
    (parse : string -> result node) (x y : list cell) (n_points : nat) (mode : string)
    (kernel_expr : option string) (default verbose : bool)
    (opt_params : gmap string val) (st : kstore) :
  let st' := snd (smooth_expression parse x y n_points mode kernel_expr default verbose
                                    opt_params st) in
  (forall id, is_Some (kernel_params st' !! id) <-> is_Some (kernel_params st !! id))
  /\ (forall id key,
        key <> "type" ->
        (kernel_params st' !! id) ≫= (fun params => params !! key)
        = (kernel_params st !! id) ≫= (fun params => params !! key))
  /\ (forall key,
        key <> "type" ->
        kernel_default_params st' !! key = kernel_default_params st !! key).
Proof.
  intros st'.
  destruct (smooth_expression_pops_type_only parse x y n_points mode kernel_expr default
              verbose opt_params st) as [Hkp Hkdp].
  fold st' in Hkp, Hkdp. split; [| split].
  - intros id. destruct (Hkp id) as [-> | ->]; [tauto |].
    destruct (kernel_params st !! id); simpl; [split; eauto |].
    split; intros [? ?]; discriminate.
  - intros id key Hne. destruct (Hkp id) as [-> | ->]; [reflexivity |].
    destruct (kernel_params st !! id); simpl; [| reflexivity].
    apply lookup_delete_ne. congruence.
  - intros key Hne. destruct Hkdp as [-> | ->]; [reflexivity |].
    apply lookup_delete_ne. congruence.
Qed.

Lemma smooth_expression_keeps_other_entries_witness :
  kernel_params
    (snd (smooth_expression Demo.parse_name [CNum 0] [CNum 1] 2 "gp" (Some "a") false
                            false ∅
                            (mk_kstore {[ "a" := {[ "type" := VStr "const";
                                                    "constant_value" := VInt 2 ]} ]} ∅)))
    !! "a" ≫= (fun params => params !! "constant_value")
  = Some (VInt 2).
Proof.
  rewrite (proj1 (proj2 (smooth_expression_keeps_other_entries Demo.parse_name [CNum 0]
                           [CNum 1] 2 "gp" (Some "a") false false ∅
                           (mk_kstore {[ "a" := {[ "type" := VStr "const";
                                                   "constant_value" := VInt 2 ]} ]} ∅)))
             "a" "constant_value" ltac:(discriminate)).
  reflexivity.
Defined.

Lemma dict_get_deleted (params : gmap string val) :
  dict_get (delete "type" params) "type" (VStr "rbf") = VStr "rbf".
Proof. unfold dict_get. rewrite lookup_delete_eq. reflexivity. Qed.

(** X18: A name of [kernel_params] loses its entry ['type'] at its first
    evaluation.  Evaluated a second time, in the same expression or in a
    later call with the same dictionary, it is therefore built by the
    constructor of the default kernel [RBF] from the remaining parameters,
    whatever its ['type'] was: this gives an [RBF] kernel when the remaining
    parameters are all parameters of [RBF], and a [TypeError] otherwise.  So
    in [a + a] the left operand has the kernel type of [a] and the right one
    is an [RBF] kernel or the point where the call fails. *)
Theorem _eval_name_twice
    (kernel_expr : string) (default : bool) (id : string) (st : kstore)
    (params : gmap string val) :
  kernel_params st !! id = Some params ->
  let st' := snd (_eval kernel_expr default (Name id) st) in
  let rest := delete "type" params in
  kernel_params st' !! id = Some rest
  /\ _eval kernel_expr default (Name id) st'
     = (if takes (kernel_keywords RBF) rest
        then Ok (KObj RBF rest) else Raise unexpected_keyword,
        st')
  /\ (forall op f c,
        operators op = Some f ->
        kernels (dict_get params "type" (VStr "rbf")) = Some c ->
        takes (kernel_keywords c) rest = true ->
        _eval kernel_expr default (BinOp (Name id) op (Name id)) st
        = (if takes (kernel_keywords RBF) rest
           then Ok (KArith f (KObj c rest) (KObj RBF rest))
           else Raise unexpected_keyword,
           st')).
Proof.
  intros Hid.
  assert (Hguard : forall (kp : gmap string (gmap string val)) p,
             kp !! id = Some p ->
             negb default && negb (bool_decide (is_Some (kp !! id))) = false).
  { intros kp p H. rewrite H, bool_decide_eq_true_2 by eauto. apply andb_false_r. }
  assert (Hfirst : snd (_eval kernel_expr default (Name id) st)
                   = mk_kstore (<[id := delete "type" params]> (kernel_params st))
                               (kernel_default_params st)).
  { simpl. rewrite (Hguard _ _ Hid), Hid. destruct (kernels _); reflexivity. }
  assert (Hsecond :
    _eval kernel_expr default (Name id)
          (mk_kstore (<[id := delete "type" params]> (kernel_params st))
                     (kernel_default_params st))
    = (construct RBF (delete "type" params),
       mk_kstore (<[id := delete "type" params]> (kernel_params st))
                 (kernel_default_params st))).
  { simpl. rewrite (Hguard _ _ (lookup_insert_eq _ _ _)), lookup_insert_eq.
    rewrite dict_get_deleted, delete_delete_eq, insert_insert_eq. reflexivity. }
  intros st' rest. unfold st', rest. rewrite Hfirst.
  split; [apply lookup_insert_eq |].
  split; [rewrite Hsecond; unfold construct; destruct (takes _ _); reflexivity |].
  intros op f c Hop Hc Hcon. simpl. rewrite Hop, (Hguard _ _ Hid), Hid, Hc. simpl.
  unfold construct at 1. rewrite Hcon.
  rewrite (Hguard _ _ (lookup_insert_eq _ _ _)), lookup_insert_eq.
  rewrite dict_get_deleted, delete_delete_eq, insert_insert_eq.
  change (kernels (VStr "rbf")) with (Some RBF). cbv iota. unfold construct.
  cbn [kernel_keywords].
  destruct (takes ["length_scale"; "length_scale_bounds"] (delete "type" params));
    [| reflexivity].
  destruct f; reflexivity.
Qed.

Lemma _eval_name_twice_witness :
  fst (_eval "a * a" false (BinOp (Name "a") Mult (Name "a")) Demo.const_params)
  = Ok (KArith OpMul (KObj ConstantKernel ∅) (KObj RBF ∅))
  /\ fst (_eval "a * a" false (BinOp (Name "a") Mult (Name "a")) Demo.const_two_params)
     = Raise unexpected_keyword.
Proof.
  split.
  - rewrite (proj2 (proj2 (_eval_name_twice "a * a" false "a" Demo.const_params
                             {[ "type" := VStr "const" ]} eq_refl))
               Mult OpMul ConstantKernel eq_refl eq_refl eq_refl).
    reflexivity.
  - rewrite (proj2 (proj2 (_eval_name_twice "a * a" false "a" Demo.const_two_params
                             Demo.const_two eq_refl))
               Mult OpMul ConstantKernel eq_refl eq_refl eq_refl).
    reflexivity.
Defined.

Lemma only_type_popped_keys (st st' : kstore) (id : string) :
  only_type_popped st st' ->
  bool_decide (is_Some (kernel_params st' !! id))
  = bool_decide (is_Some (kernel_params st !! id)).
Proof.
  intros [Hkp _]. apply bool_decide_ext.
  destruct (Hkp id) as [-> | ->]; [tauto |].
  destruct (kernel_params st !! id); simpl; [split; eauto |].
  split; intros [? ?]; discriminate.
Qed.

Lemma supported_only_type_popped (default : bool) (st st' : kstore) (n : node) :
  only_type_popped st st' -> supported default st' n = supported default st n.
Proof.
  intros H. induction n as [q | id | l IHl op r IHr | op n IHn | kind]; simpl;
    try reflexivity.
  - rewrite (only_type_popped_keys st st' id H). reflexivity.
  - rewrite IHl, IHr. reflexivity.
Qed.

(** X19: [_eval] returns a kernel only for an expression made of numbers, of
    names that are keys of [kernel_params] (any name with [default=True])
    and of the binary operators [+], [*] and [**]: a unary minus, a
    difference, a quotient, a call or a name that is no key makes it raise,
    wherever in the expression it stands. *)
Theorem _eval_returns_only_supported
    (kernel_expr : string) (default : bool) (n : node) (st : kstore) :
  supported default st n = false ->
  is_ok (fst (_eval kernel_expr default n st)) = false.
Proof.
  revert st. induction n as [q | id | l IHl op r IHr | op n IHn | kind];
    intros st; simpl; try reflexivity; try discriminate.
  - intros H. apply orb_false_iff in H as [-> H]. rewrite H. reflexivity.
  - destruct (operators op) as [f |]; [| reflexivity]. simpl. intros H.
    pose proof (_eval_pops_type_only kernel_expr default l st) as Hl.
    specialize (IHl st).
    destruct (_eval kernel_expr default l st) as [[vl | e] st1]; [| reflexivity].
    simpl in Hl, IHl.
    destruct (supported default st l); [| discriminate (IHl eq_refl)].
    simpl in H. rewrite <- (supported_only_type_popped default st st1 r Hl) in H.
    specialize (IHr st1 H).
    destruct (_eval kernel_expr default r st1) as [[vr | e] st2];
      [discriminate IHr | reflexivity].
Qed.

Lemma _eval_returns_only_supported_witness :
  is_ok (fst (_eval "a * -a" false (BinOp (Name "a") Mult (UnaryOp USub (Name "a")))
                    Demo.const_params)) = false.
Proof.
  apply (_eval_returns_only_supported "a * -a" false
           (BinOp (Name "a") Mult (UnaryOp USub (Name "a"))) Demo.const_params).
  reflexivity.
Defined.

(** ** The distances under diffusion pseudotime *)




